(** * currency-fx-dashboard: the retrieval-and-computation core

    A shallow embedding of [core/schemas.py] and [core/fx_service.py]:
    the TTL cache, the retrying network fetch, the fallback to the bundled
    dataset and the day-by-day and aggregate statistics.

    Rates are IEEE 754 binary64 values ([PrimFloat.float]), as Python's
    [float]; strings are byte strings holding the UTF-8 text (byte-wise
    lexicographic order is code-point order, which is how Python compares
    [str]); clock readings are rationals.  Everything the process reads from
    outside (the clock, the HTTP responses, the bundled file) comes from a
    [World], and every call threads a [State] that counts what was consumed,
    so that "no network call" is a statement about that state. *)

From Stdlib Require Import ZArith QArith Qminmax Floats List String Bool Lia.
From Stdlib Require Import Permutation Sorted Mergesort Orders OrderedTypeEx.
Import ListNotations.

Set Warnings "-inexact-float".
Set Implicit Arguments.

(* ------------------------------------------------------------------ *)
(** * Python: exceptions, results, floats, dicts, lists                *)
(* ------------------------------------------------------------------ *)

Module Py.

(** The subclasses of [Exception] the pipeline can meet.  Signals that are
    only [BaseException] (task cancellation, [KeyboardInterrupt]) are outside
    the model. *)
Inductive Exn : Type :=
  (* httpx.TimeoutException *)
  | ConnectTimeout | ReadTimeout | WriteTimeout | PoolTimeout
  (* httpx.NetworkError *)
  | ConnectError | ReadError | WriteError | CloseError
  (* the other httpx.TransportError classes *)
  | ProtocolError | ProxyError | UnsupportedProtocol
  (* the other httpx.RequestError classes *)
  | DecodingError | TooManyRedirects
  (* httpx.HTTPStatusError, raised by raise_for_status, with the status *)
  | HTTPStatusError (status_code : Z)
  (* httpx exceptions that are not httpx.HTTPError *)
  | InvalidURL | CookieConflict
  (* json / builtins *)
  | JSONDecodeError | UnicodeDecodeError | OSError
  | KeyError (key : string) | IndexError | ZeroDivisionError | ValueError.

(** The classes named in an [isinstance] test of the program. *)
Inductive ExnType : Type :=
  | httpx_HTTPError | httpx_RequestError | httpx_TransportError
  | httpx_TimeoutException | httpx_NetworkError.

(** httpx's hierarchy ([httpx/_exceptions.py]):
    HTTPError > RequestError > TransportError > TimeoutException, NetworkError, ...;
    HTTPError > HTTPStatusError. *)
Definition isinstance (e : Exn) (c : ExnType) : bool :=
  match c, e with
  | httpx_TimeoutException, (ConnectTimeout | ReadTimeout | WriteTimeout | PoolTimeout) => true
  | httpx_NetworkError, (ConnectError | ReadError | WriteError | CloseError) => true
  | httpx_TransportError,
    (ConnectTimeout | ReadTimeout | WriteTimeout | PoolTimeout
     | ConnectError | ReadError | WriteError | CloseError
     | ProtocolError | ProxyError | UnsupportedProtocol) => true
  | httpx_RequestError,
    (ConnectTimeout | ReadTimeout | WriteTimeout | PoolTimeout
     | ConnectError | ReadError | WriteError | CloseError
     | ProtocolError | ProxyError | UnsupportedProtocol
     | DecodingError | TooManyRedirects) => true
  | httpx_HTTPError,
    (ConnectTimeout | ReadTimeout | WriteTimeout | PoolTimeout
     | ConnectError | ReadError | WriteError | CloseError
     | ProtocolError | ProxyError | UnsupportedProtocol
     | DecodingError | TooManyRedirects
     | HTTPStatusError _) => true
  | _, _ => false
  end.

(** A computation either returns or raises. *)
Inductive result (A : Type) : Type :=
  | Ok (a : A)
  | Raise (e : Exn).
Arguments Ok {A} a.
Arguments Raise {A} e.

Definition bind {A B} (r : result A) (k : A -> result B) : result B :=
  match r with
  | Ok a => k a
  | Raise e => Raise e
  end.

Definition is_ok {A} (r : result A) : bool :=
  match r with Ok _ => true | Raise _ => false end.

Declare Scope py_scope.
Delimit Scope py_scope with py.
Notation "'let?' x ':=' e 'in' k" := (bind e (fun x => k))
  (at level 10, x name, e at level 100, k at level 200) : py_scope.

(** ** float *)

(** [a / b] on floats: [ZeroDivisionError] when [b == 0.0] (either zero),
    the IEEE quotient otherwise. *)
Definition truediv (a b : float) : result float :=
  if PrimFloat.eqb b 0 then Raise ZeroDivisionError else Ok (a / b)%float.

(** [float(n)] for a non-negative int below 2^63 (a length). *)
Definition float_of_nat (n : nat) : float :=
  PrimFloat.of_uint63 (Uint63.of_Z (Z.of_nat n)).

(** [a / n] with [n] an int: the int is converted to a double first; that
    double is [0.0] exactly when [n] is [0]. *)
Definition truediv_int (a : float) (n : nat) : result float :=
  match n with
  | O => Raise ZeroDivisionError
  | S _ => Ok (a / float_of_nat n)%float
  end.

(** Nearest integer to [num / den] ([den > 0]), ties to the even one. *)
Definition round_half_even (num den : Z) : Z :=
  let q := (num / den)%Z in
  let r := (num mod den)%Z in
  match (2 * r ?= den)%Z with
  | Lt => q
  | Gt => (q + 1)%Z
  | Eq => if Z.even q then q else (q + 1)%Z
  end.

(** [round(x, ndigits)] for a float and [ndigits >= 0], as CPython's
    [double_round]: the exact binary value of [x] is rounded half-even to
    [ndigits] decimals ([_Py_dg_dtoa], mode 3) and the decimal is converted
    back to the nearest double ([_Py_dg_strtod]).  NaN, the infinities and
    the zeros round to themselves; above 323 digits every double does.
    Where the conversion back would leave the double range CPython raises
    [OverflowError]; here the result is then the infinity. *)
Definition round (x : float) (ndigits : nat) : float :=
  if (323 <? ndigits)%nat then x else
  match Prim2SF x with
  | S754_finite s m e =>
      let scale := (10 ^ Z.of_nat ndigits)%Z in
      let n := if (0 <=? e)%Z
               then (Z.pos m * 2 ^ e * scale)%Z
               else round_half_even (Z.pos m * scale) (2 ^ (- e)) in
      match n, scale with
      | Z.pos pn, Z.pos ps =>
          SF2Prim (SFdiv prec emax (S754_finite s pn 0) (S754_finite false ps 0))
      | _, _ => SF2Prim (S754_zero s)
      end
  | _ => x
  end.

(** [sum(xs)] over floats: the start value is the int [0], then one float
    addition per item, left to right.  (CPython 3.12 and later carry a
    compensation term along, which can move the last bits.) *)
Definition sum (xs : list float) : float :=
  fold_left PrimFloat.add xs 0%float.

(** ** dict with [str] keys, in insertion order; the keys are distinct *)

Definition dict (V : Type) : Type := list (string * V).

Definition keys {V} (d : dict V) : list string := map fst d.

Definition dict_wf {V} (d : dict V) : Prop := NoDup (keys d).

Fixpoint lookup {V} (d : dict V) (k : string) : option V :=
  match d with
  | [] => None
  | (k', v) :: d' => if String.eqb k' k then Some v else lookup d' k
  end.

(** [d[k]] *)
Definition getitem {V} (d : dict V) (k : string) : result V :=
  match lookup d k with
  | Some v => Ok v
  | None => Raise (KeyError k)
  end.

(** [d.get(k, default)] *)
Definition get {V} (d : dict V) (k : string) (default : V) : V :=
  match lookup d k with
  | Some v => v
  | None => default
  end.

(** ** list *)

(** [xs[i]] with Python's negative indices. *)
Definition list_getitem {A} (xs : list A) (i : Z) : result A :=
  let n := Z.of_nat (List.length xs) in
  let j := if (i <? 0)%Z then (i + n)%Z else i in
  if ((j <? 0) || (n <=? j))%Z then Raise IndexError
  else match nth_error xs (Z.to_nat j) with
       | Some a => Ok a
       | None => Raise IndexError
       end.

(** ** sorted() on strings *)

Module StringOrder <: TotalLeBool.
Definition t := string.
Definition leb := String.leb.
Definition leb_total : forall a1 a2, leb a1 a2 = true \/ leb a2 a1 = true :=
  String.leb_total.
End StringOrder.

Module StringSort := Sort StringOrder.

Definition sorted (xs : list string) : list string := StringSort.sort xs.

End Py.

(* ------------------------------------------------------------------ *)
(** * core/schemas.py                                                  *)
(* ------------------------------------------------------------------ *)

Module Schemas.

(** [class BreakdownChoice(str, Enum)] *)
Inductive BreakdownChoice : Type := day | none.

Definition value (b : BreakdownChoice) : string :=
  match b with
  | day => "day"
  | none => "none"
  end.

Definition BreakdownChoice_eqb (a b : BreakdownChoice) : bool :=
  match a, b with
  | day, day | none, none => true
  | _, _ => false
  end.

Record DayRecord : Type := {
  date : string;
  rate : float;
  pct_change : option float
}.

Record Totals : Type := {
  start_rate : float;
  end_rate : float;
  total_pct_change : float;
  mean_rate : float
}.

Record SummaryResponse : Type := {
  base : string;
  target : string;
  start_date : string;
  end_date : string;
  breakdown : string;
  days : option (list DayRecord);
  totals : Totals
}.

(** The constructor call of the model, with the class's defaults for the
    fields the caller leaves out: [base = "EUR"], [target = "USD"]. *)
Definition SummaryResponse_init (start_date end_date breakdown : string)
    (days : option (list DayRecord)) (totals : Totals) : SummaryResponse :=
  {| base := "EUR"; target := "USD";
     start_date := start_date; end_date := end_date;
     breakdown := breakdown; days := days; totals := totals |}.

End Schemas.

(* ------------------------------------------------------------------ *)
(** * The process and its environment                                  *)
(* ------------------------------------------------------------------ *)

Module Runtime.
Import Py.

(** [dict[str, dict[str, float]]]: date -> currency -> rate. *)
Definition Rates : Type := dict (dict float).

(** A raw document ([dict[str, Any]]): the one entry the pipeline reads,
    ["rates"], present or not, and the other top-level entries. *)
Record Document : Type := {
  doc_rates : option Rates;
  doc_rest : dict string
}.

(** [data.get("rates", {})] *)
Definition get_rates (data : Document) : Rates :=
  match doc_rates data with
  | Some r => r
  | None => []
  end.

Record Request : Type := {
  url : string;
  params : dict string
}.

(** What one GET comes to: the client raises, or a response arrives with a
    status and a body that parses as JSON or does not. *)
Record Response : Type := {
  status_code : Z;
  body : option Document
}.

Inductive Attempt : Type :=
  | GetRaises (e : Exn)
  | GetReturns (r : Response).

(** The environment: the n-th reading of the cache's timer
    ([time.monotonic], seconds), the answer to the n-th GET, the outcome of
    the n-th read of [data/sample_fx.json]. *)
Record World : Type := {
  monotonic : nat -> Q;
  http_get : nat -> Request -> Attempt;
  sample_fx : nat -> result Document
}.

(** One entry of the TTL cache. *)
Record Link : Type := {
  key : string;
  val : Document;
  expires : Q
}.

(** The process state: the module-level cache (its entries, least recently
    used first) and what has been consumed from the world so far. *)
Record State : Type := {
  _cache : list Link;
  timer_reads : nat;
  requests : list Request;      (* GETs sent, newest first *)
  sleeps : list Q;              (* backoff waits, newest first *)
  fallback_loads : nat
}.

Definition M (A : Type) : Type := State -> result A * State.

Definition ret {A} (a : A) : M A := fun s => (Ok a, s).

Definition raise {A} (e : Exn) : M A := fun s => (Raise e, s).

Definition bindM {A B} (m : M A) (k : A -> M B) : M B :=
  fun s =>
    match m s with
    | (Ok a, s') => k a s'
    | (Raise e, s') => (Raise e, s')
    end.

Definition lift {A} (r : result A) : M A := fun s => (r, s).

(** [try: body / except Exception: handler] *)
Definition try_except {A} (body : M A) (handler : Exn -> M A) : M A :=
  fun s =>
    match body s with
    | (Ok a, s') => (Ok a, s')
    | (Raise e, s') => handler e s'
    end.

Declare Scope m_scope.
Delimit Scope m_scope with M.
Notation "x <- e ;; k" := (bindM e (fun x => k))
  (at level 61, e at next level, right associativity) : m_scope.
Notation "e ;;; k" := (bindM e (fun _ => k))
  (at level 61, right associativity) : m_scope.

Definition set_cache (c : list Link) (s : State) : State :=
  {| _cache := c; timer_reads := timer_reads s; requests := requests s;
     sleeps := sleeps s; fallback_loads := fallback_loads s |}.

(** One reading of the timer. *)
Definition timer (w : World) : M Q :=
  fun s =>
    (Ok (monotonic w (timer_reads s)),
     {| _cache := _cache s; timer_reads := S (timer_reads s);
        requests := requests s; sleeps := sleeps s;
        fallback_loads := fallback_loads s |}).

(** [await asyncio.sleep(d)] between two attempts. *)
Definition sleep (d : Q) : M unit :=
  fun s =>
    (Ok tt,
     {| _cache := _cache s; timer_reads := timer_reads s;
        requests := requests s; sleeps := d :: sleeps s;
        fallback_loads := fallback_loads s |}).

(** [await client.get(url, params=params)] *)
Definition client_get (w : World) (url : string) (params : dict string) : M Response :=
  fun s =>
    let rq := {| url := url; params := params |} in
    let s' := {| _cache := _cache s; timer_reads := timer_reads s;
                 requests := rq :: requests s; sleeps := sleeps s;
                 fallback_loads := fallback_loads s |} in
    match http_get w (List.length (requests s)) rq with
    | GetRaises e => (Raise e, s')
    | GetReturns r => (Ok r, s')
    end.

(** [open(SAMPLE_FX_PATH)] and [json.load]: the document, or the error of
    whichever of the two failed. *)
Definition read_sample_fx (w : World) : M Document :=
  fun s =>
    (sample_fx w (fallback_loads s),
     {| _cache := _cache s; timer_reads := timer_reads s;
        requests := requests s; sleeps := sleeps s;
        fallback_loads := S (fallback_loads s) |}).

Definition Qltb (a b : Q) : bool := negb (Qle_bool b a).

End Runtime.

(* ------------------------------------------------------------------ *)
(** * cachetools.TTLCache                                              *)
(* ------------------------------------------------------------------ *)

(** The third-party cache, as its source and section 4.3 of the design
    give it: entries carry an expiry time, a lookup of an expired entry is a
    miss, an insertion first drops what has expired and then, when a new key
    does not fit, the least recently used entry.  Every value has size 1.
    Entries are kept least recently used first; with a clock that does not
    run backwards and one [ttl], dropping the expired entries is a filter. *)
Module Cachetools.
Import Py Runtime.

Section TTLCache.
Variable w : World.
Variable maxsize : nat.
Variable ttl : Q.

Definition find_link (k : string) (c : list Link) : option Link :=
  List.find (fun l => String.eqb (key l) k) c.

Definition unlink (k : string) (c : list Link) : list Link :=
  List.filter (fun l => negb (String.eqb (key l) k)) c.

(** [expire(time)] *)
Definition expire (time : Q) (c : list Link) : list Link :=
  List.filter (fun l => Qltb time (expires l)) c.

(** [while currsize + 1 > maxsize: popitem()] *)
Fixpoint make_room (c : list Link) : list Link :=
  match c with
  | [] => []
  | _ :: c' => if (maxsize <? List.length c + 1)%nat then make_room c' else c
  end.

(** [key in cache]: no reordering; the timer is read only for a key that
    has an entry. *)
Definition contains (k : string) : M bool :=
  fun s =>
    match find_link k (_cache s) with
    | None => (Ok false, s)
    | Some l => (now <- timer w ;; ret (Qltb now (expires l)))%M s
    end.

(** [cache[key]]: the entry becomes the most recently used one;
    [KeyError] when there is none or it has expired. *)
Definition getitem (k : string) : M Document :=
  fun s =>
    match find_link k (_cache s) with
    | None => (Raise (KeyError k), s)
    | Some l =>
        (now <- timer w ;;
         if Qltb now (expires l) then ret (val l) else raise (KeyError k))%M
          (set_cache (unlink k (_cache s) ++ [l]) s)
    end.

(** The entries after [cache[key] = value] at the reading [time]: what has
    expired is dropped, room is made if the key is new, and the key's entry
    comes last, expiring [ttl] later. *)
Definition inserted (time : Q) (k : string) (v : Document) (c : list Link)
  : list Link :=
  let c := expire time c in
  let c := match find_link k c with
           | Some _ => c
           | None => make_room c
           end in
  unlink k c ++ [{| key := k; val := v; expires := time + ttl |}].

(** [cache[key] = value]; [ValueError] when a value of size 1 is larger
    than the cache. *)
Definition setitem (k : string) (v : Document) : M unit :=
  (time <- timer w ;;
   fun s =>
     if (maxsize <? 1)%nat
     then (Raise ValueError, set_cache (expire time (_cache s)) s)
     else (Ok tt, set_cache (inserted time k v (_cache s)) s))%M.

End TTLCache.
End Cachetools.

(* ------------------------------------------------------------------ *)
(** * httpx and tenacity                                               *)
(* ------------------------------------------------------------------ *)

Module Httpx.
Import Py Runtime.

Definition is_success (status : Z) : bool :=
  ((200 <=? status) && (status <=? 299))%Z.

(** [resp.raise_for_status()] *)
Definition raise_for_status (r : Response) : result Response :=
  if is_success (status_code r) then Ok r
  else Raise (HTTPStatusError (status_code r)).

(** [resp.json()] *)
Definition json (r : Response) : result Document :=
  match body r with
  | Some d => Ok d
  | None => Raise JSONDecodeError
  end.

End Httpx.

Module Tenacity.
Import Py Runtime.

(** [wait_exponential(multiplier, min, max)] at [exp_base = 2]. *)
Definition wait_exponential (multiplier min max : Q) (attempt_number : nat) : Q :=
  let exp := inject_Z (2 ^ Z.of_nat (attempt_number - 1)) in
  let result := multiplier * exp in
  Qmax (Qmax 0 min) (Qmin result max).

Section Retry.
Variable A : Type.
(** [retry=], [stop=stop_after_attempt(n)], [wait=]; [reraise=True]. *)
Variable retry_if : Exn -> bool.
Variable stop_after_attempt : nat.
Variable wait : nat -> Q.
Variable fn : M A.

(** The attempt numbered [attempt_number], with [left] more allowed after
    it ([left = stop_after_attempt - attempt_number]).  A result is
    returned; an exception outside [retry_if] propagates at once; one
    inside it is raised again when no attempt is left, and otherwise
    followed by the wait and the next attempt. *)
Fixpoint attempt (left attempt_number : nat) : M A :=
  fun s =>
    match fn s with
    | (Ok a, s') => (Ok a, s')
    | (Raise e, s') =>
        if retry_if e then
          match left with
          | O => (Raise e, s')
          | S left' =>
              (sleep (wait attempt_number) ;;;
               attempt left' (S attempt_number))%M s'
          end
        else (Raise e, s')
    end.

Definition retry : M A := attempt (stop_after_attempt - 1) 1.
End Retry.

End Tenacity.

(* ------------------------------------------------------------------ *)
(** * core/fx_service.py                                               *)
(* ------------------------------------------------------------------ *)

Module FxService.
Import Py Schemas Runtime.
Local Open Scope py_scope.

Definition FRANKFURTER_BASE_URL : string := "https://api.frankfurter.dev/v1".

(** [TTLCache(maxsize=256, ttl=900)] *)
Definition maxsize : nat := 256.
Definition ttl : Q := 900.

(** The decorator's [retry=retry_if_exception_type((HTTPError, TimeoutException))]. *)
Definition retry_if_exception_type (e : Exn) : bool :=
  isinstance e httpx_HTTPError || isinstance e httpx_TimeoutException.

(** The body of [_fetch_from_api]: one GET. *)
Definition _fetch_from_api_body (w : World) (url : string) (params : dict string)
  : M Document :=
  (resp <- client_get w url params ;;
   resp <- lift (Httpx.raise_for_status resp) ;;
   lift (Httpx.json resp))%M.

Definition _fetch_from_api (w : World) (url : string) (params : dict string)
  : M Document :=
  Tenacity.retry retry_if_exception_type 3
    (Tenacity.wait_exponential (1 # 2) (1 # 2) 4)
    (_fetch_from_api_body w url params).

Definition _load_fallback (w : World) : M Document := read_sample_fx w.

Definition cache_key_of (start_date end_date : string) : string :=
  (start_date ++ ".." ++ end_date)%string.

(** [url] and [params] of [fetch_rates]. *)
Definition request_url (start_date end_date : string) : string :=
  (FRANKFURTER_BASE_URL ++ "/" ++ start_date ++ ".." ++ end_date)%string.

Definition request_params : dict string :=
  [("base", "EUR"); ("symbols", "USD")]%string.

Definition fetch_rates (w : World) (start_date end_date : string) : M Document :=
  let cache_key := cache_key_of start_date end_date in
  (hit <- Cachetools.contains w cache_key ;;
   if hit : bool then Cachetools.getitem w cache_key
   else
     let url := request_url start_date end_date in
     let params := request_params in
     data <- try_except (_fetch_from_api w url params)
                        (fun _ => _load_fallback w) ;;
     Cachetools.setitem w maxsize ttl cache_key data ;;;
     ret data)%M.

Definition _safe_pct_change (current previous : float) : result float :=
  if PrimFloat.eqb previous 0 then Ok 0%float
  else
    let? q := truediv (current - previous) previous in
    Ok (round (q * 100) 4).

(** The [for] loop of [_build_day_records], over the dates still to visit,
    with the two variables it updates. *)
Fixpoint _build_day_records_loop (rates : Rates) (sorted_dates : list string)
    (records : list DayRecord) (prev_rate : option float)
  : result (list DayRecord) :=
  match sorted_dates with
  | [] => Ok records
  | date_str :: rest =>
      let? by_currency := getitem rates date_str in
      let rate := get by_currency "USD" 0%float in
      let? pct := match prev_rate with
                  | None => Ok None
                  | Some prev => let? c := _safe_pct_change rate prev in Ok (Some c)
                  end in
      _build_day_records_loop rates rest
        (records ++ [{| date := date_str; rate := rate; pct_change := pct |}])
        (Some rate)
  end.

Definition _build_day_records (rates : Rates) : result (list DayRecord) :=
  let sorted_dates := sorted (keys rates) in
  _build_day_records_loop rates sorted_dates [] None.

Definition _build_totals (records : list DayRecord) : result Totals :=
  match records with
  | [] =>
      Ok {| start_rate := 0; end_rate := 0; total_pct_change := 0; mean_rate := 0 |}
  | _ :: _ =>
      let? first := list_getitem records 0 in
      let start_rate := rate first in
      let? last := list_getitem records (-1) in
      let end_rate := rate last in
      let? total_pct_change := _safe_pct_change end_rate start_rate in
      let? mean_rate :=
        match records with
        | [] => Ok 0%float
        | _ :: _ =>
            let? mean := truediv_int (sum (map rate records)) (List.length records) in
            Ok (round mean 6)
        end in
      Ok {| start_rate := start_rate; end_rate := end_rate;
            total_pct_change := total_pct_change; mean_rate := mean_rate |}
  end.

Definition get_summary (w : World) (start_date end_date : string)
    (breakdown : BreakdownChoice) : M SummaryResponse :=
  (data <- fetch_rates w start_date end_date ;;
   let raw_rates := get_rates data in
   records <- lift (_build_day_records raw_rates) ;;
   totals <- lift (_build_totals records) ;;
   ret (SummaryResponse_init start_date end_date (value breakdown)
          (if BreakdownChoice_eqb breakdown day then Some records else None)
          totals))%M.

End FxService.

(* ------------------------------------------------------------------ *)
(** * The design's formulas, in its own words                          *)
(* ------------------------------------------------------------------ *)

Module Design.
Import Py Schemas Runtime.

(** Section 4.5: [round(((current - previous) / previous) * 100, 4)],
    guarded: the result is [0.0] if [previous == 0].  The division is the
    IEEE one, which has no error case. *)
Definition percent_change (current previous : float) : float :=
  if PrimFloat.eqb previous 0 then 0%float
  else round (((current - previous) / previous) * 100) 4.

(** Section 4.5: the target currency's rate of a date, [0.0] if absent. *)
Definition usd_rate (rates : Rates) (date_str : string) : float :=
  match lookup rates date_str with
  | Some by_currency =>
      match lookup by_currency "USD" with
      | Some r => r
      | None => 0%float
      end
  | None => 0%float
  end.

(** Section 3, DayRecord: one record per date in the given order, the
    change from the previous day's rate, null on the first. *)
Fixpoint day_records (rates : Rates) (dates : list string) (previous : option float)
  : list DayRecord :=
  match dates with
  | [] => []
  | d :: rest =>
      let r := usd_rate rates d in
      {| date := d; rate := r;
         pct_change := option_map (percent_change r) previous |}
        :: day_records rates rest (Some r)
  end.

(** Section 4.5: the arithmetic mean of all rates rounded to 6 places. *)
Definition mean_rate_of (rs : list float) : float :=
  round (sum rs / float_of_nat (List.length rs)) 6.

Definition zero_totals : Totals :=
  {| start_rate := 0; end_rate := 0; total_pct_change := 0; mean_rate := 0 |}.

End Design.

(* ------------------------------------------------------------------ *)
(** * Observing a run                                                  *)
(* ------------------------------------------------------------------ *)

Module Observe.
Import Py Schemas Runtime FxService.

(** What one attempt comes to, given the answer to its GET: the client's
    exception, the status error of a response that is not 2xx, the decoding
    error of a body that is not JSON, or the document. *)
Definition outcome (a : Attempt) : result Document :=
  match a with
  | GetRaises e => Raise e
  | GetReturns r => bind (Httpx.raise_for_status r) Httpx.json
  end.

(** The outcome of the [i]-th GET sent from state [s] on. *)
Definition nth_outcome (w : World) (rq : Request) (s : State) (i : nat)
  : result Document :=
  outcome (http_get w (List.length (requests s) + i) rq).

(** The request [fetch_rates] sends for a range. *)
Definition request_of (start_date end_date : string) : Request :=
  {| url := request_url start_date end_date; params := request_params |}.

(** The steps of one [fetch_rates] call that misses: the cache lookup, then
    the network fetch from the state the lookup leaves. *)
Definition lookup_step (w : World) (start_date end_date : string) (s : State)
  : result bool * State :=
  Cachetools.contains w (cache_key_of start_date end_date) s.

Definition is_miss (w : World) (start_date end_date : string) (s : State) : Prop :=
  fst (lookup_step w start_date end_date s) = Ok false.

Definition network_step (w : World) (start_date end_date : string) (s : State)
  : result Document * State :=
  _fetch_from_api w (request_url start_date end_date) request_params
    (snd (lookup_step w start_date end_date s)).

(** What a call does once its lookup has missed, from the state [s1] the
    lookup leaves: the network fetch, the fallback load if that raises, and
    the insertion of whichever document was obtained. *)
Definition miss_path (w : World) (start_date end_date : string) (s1 : State)
  : result Document * State :=
  match _fetch_from_api w (request_url start_date end_date) request_params s1 with
  | (Ok data, s2) =>
      (Ok data,
       snd (Cachetools.setitem w maxsize ttl (cache_key_of start_date end_date) data s2))
  | (Raise _, s2) =>
      match sample_fx w (fallback_loads s2) with
      | Ok data =>
          (Ok data,
           snd (Cachetools.setitem w maxsize ttl (cache_key_of start_date end_date) data
                  (snd (read_sample_fx w s2))))
      | Raise e => (Raise e, snd (read_sample_fx w s2))
      end
  end.

(** The cache entry of a range, if any. *)
Definition entry (start_date end_date : string) (s : State) : option Link :=
  Cachetools.find_link (cache_key_of start_date end_date) (_cache s).

(** One call of [fetch_rates] per range of the list, in a row; the state
    after the last one. *)
Fixpoint fetch_all (w : World) (ranges : list (string * string)) (s : State) : State :=
  match ranges with
  | [] => s
  | (a, b) :: rest => fetch_all w rest (snd (fetch_rates w a b s))
  end.

(** The cache keys of the ranges of a list that are not [k], in the order
    of the calls, and the same each once. *)
Definition others (k : string) (ranges : list (string * string)) : list string :=
  List.filter (fun k' => negb (String.eqb k' k))
    (map (fun r => cache_key_of (fst r) (snd r)) ranges).

Definition other_keys (k : string) (ranges : list (string * string)) : list string :=
  nodup string_dec (others k ranges).

(** The cache [c] holds the entry [l] as the one of its key, and the
    entries used more recently than [l] belong to distinct keys of [seen]. *)
Definition held (l : Link) (seen : list string) (c : list Link) : Prop :=
  exists older newer,
    c = older ++ l :: newer
    /\ ~ In (key l) (map key older)
    /\ NoDup (map key newer)
    /\ incl (map key newer) seen.

End Observe.

(* ------------------------------------------------------------------ *)
(** * Concrete documents, worlds and runs                              *)
(* ------------------------------------------------------------------ *)

Module Examples.
Import Py Schemas Runtime FxService Observe.
Local Open Scope string_scope.

(** The totals example of section 8, keys given latest first. *)
Definition rates_jan : Rates :=
  [("2025-01-03", [("USD", 1.05%float)]);
   ("2025-01-02", [("USD", 1.03%float)])].

(** The division-guard example of section 8, and a day without USD. *)
Definition rates_guard : Rates :=
  [("2025-01-01", [("USD", 0%float)]);
   ("2025-01-02", [("USD", 10%float)]);
   ("2025-01-03", [("GBP", 0.84%float)])].

Definition doc_live : Document :=
  {| doc_rates := Some rates_jan;
     doc_rest := [("base", "EUR"); ("start_date", "2025-01-02")] |}.

Definition doc_sample : Document :=
  {| doc_rates := Some rates_guard; doc_rest := [("base", "EUR")] |}.

(** A document with no ["rates"] entry at all. *)
Definition doc_no_rates : Document :=
  {| doc_rates := None; doc_rest := [("message", "not found")] |}.

(** A fresh process. *)
Definition s0 : State :=
  {| _cache := []; timer_reads := 0; requests := []; sleeps := [];
     fallback_loads := 0 |}.

(** One second goes by between two readings of the clock. *)
Definition clock (n : nat) : Q := inject_Z (Z.of_nat n).

Definition respond (status : Z) (b : option Document) : Attempt :=
  GetReturns {| status_code := status; body := b |}.

(** The provider answers every GET with the live document. *)
Definition w_live : World :=
  {| monotonic := clock;
     http_get := fun _ _ => respond 200 (Some doc_live);
     sample_fx := fun _ => Ok doc_sample |}.

(** The provider answers every GET with 404 Not Found. *)
Definition w_404 : World :=
  {| monotonic := clock;
     http_get := fun _ _ => respond 404 None;
     sample_fx := fun _ => Ok doc_sample |}.

(** The provider answers 200 with a body that is not JSON. *)
Definition w_malformed : World :=
  {| monotonic := clock;
     http_get := fun _ _ => respond 200 None;
     sample_fx := fun _ => Ok doc_sample |}.

(** The first GET times out, the second is answered. *)
Definition w_flaky : World :=
  {| monotonic := clock;
     http_get := fun n _ =>
       match n with
       | O => GetRaises ReadTimeout
       | S _ => respond 200 (Some doc_live)
       end;
     sample_fx := fun _ => Ok doc_sample |}.

(** The provider cannot be reached; the bundled file is there. *)
Definition w_down : World :=
  {| monotonic := fun _ => 0;
     http_get := fun _ _ => GetRaises ConnectError;
     sample_fx := fun _ => Ok doc_sample |}.

(** The provider cannot be reached and the bundled file cannot be read. *)
Definition w_dead : World :=
  {| monotonic := clock;
     http_get := fun _ _ => GetRaises ConnectError;
     sample_fx := fun _ => Raise OSError |}.

(** The provider answers with a document that has no ["rates"]. *)
Definition w_no_rates : World :=
  {| monotonic := clock;
     http_get := fun _ _ => respond 200 (Some doc_no_rates);
     sample_fx := fun _ => Ok doc_sample |}.

Definition jan_1 : string := "2025-01-01".
Definition jan_3 : string := "2025-01-03".

(** The fresh process asks for January while the provider is down. *)
Definition s_degraded : State := snd (fetch_rates w_down jan_1 jan_3 s0).

(** 256 ranges, all different from each other and from January. *)
Definition other_ranges : list (string * string) :=
  map (fun n => (String (Ascii.ascii_of_nat n) EmptyString, jan_3)) (seq 0 256).

(** Then for each of the 256 other ranges, once. *)
Definition s_crowded : State := fetch_all w_down other_ranges s_degraded.

End Examples.

(* ------------------------------------------------------------------ *)
(** * dashboard/views.py                                               *)
(* ------------------------------------------------------------------ *)

Module Views.
Import Py Schemas Runtime FxService.


Section Index.
Variable w : World.
(** [str(exc)], the text of an exception. *)
Variable str : Exn -> string.
(** [(date.today() - timedelta(days=7)).isoformat()] and
    [date.today().isoformat()] at the time of the request. *)
Variable default_start : string.
Variable default_end : string.


End Index.
End Views.

(* ------------------------------------------------------------------ *)
(** * Invariants and further runs                                      *)
(* ------------------------------------------------------------------ *)

Module Invariants.
Import Py Schemas Runtime FxService Observe.
Import Stdlib.Strings.Ascii.

(** What the cache of a running process looks like: one entry per key and
    no more entries than [maxsize]. *)
Definition cache_wf (c : list Link) : Prop :=
  NoDup (map key c) /\ (List.length c <= maxsize)%nat.

(** A string without a full stop, as an ISO date is. *)
Fixpoint dot_free (s : string) : bool :=
  match s with
  | EmptyString => true
  | String c rest => negb (Ascii.eqb c "."%char) && dot_free rest
  end.

(** The waits of a call that made [n] attempts, newest first. *)
Definition backoff (n : nat) : list Q :=
  rev (map (Tenacity.wait_exponential (1 # 2) (1 # 2) 4) (seq 1 (n - 1))).

End Invariants.

Module Scenarios.
Import Py Schemas Runtime FxService Observe Examples.

(** A thousand seconds go by between two readings of the clock. *)
Definition w_slow : World :=
  {| monotonic := fun n => inject_Z (1000 * Z.of_nat n);
     http_get := fun _ _ => respond 200 (Some doc_live);
     sample_fx := fun _ => Ok doc_sample |}.

(** The entry written at 0 is still live at the next reading and expired
    at the one after. *)
Definition w_race : World :=
  {| monotonic := fun n =>
       match n with
       | O => 0
       | S O => 899
       | S (S _) => 900
       end;
     http_get := fun _ _ => respond 200 (Some doc_live);
     sample_fx := fun _ => Ok doc_sample |}.

(** The state a first fetch of January leaves in those worlds. *)
Definition s_slow : State := snd (fetch_rates w_slow jan_1 jan_3 s0).
Definition s_race : State := snd (fetch_rates w_race jan_1 jan_3 s0).
Definition s_live : State := snd (fetch_rates w_live jan_1 jan_3 s0).

End Scenarios.

(* ------------------------------------------------------------------ *)
(** * Statistics: percent change and totals                            *)
(* ------------------------------------------------------------------ *)

Import Py Schemas Runtime FxService Observe.

Unset Implicit Arguments.

(** Split a conjunction into its parts, leaving equations alone. *)
Ltac split_all :=
  repeat match goal with
         | |- _ /\ _ => split
         end.

Section PercentChange.

Lemma truediv_nonzero (a b : float) :
  PrimFloat.eqb b 0 = false -> truediv a b = Ok (a / b)%float.
Proof. intros Hb. unfold truediv. now rewrite Hb. Qed.

Lemma truediv_zero (a b : float) :
  PrimFloat.eqb b 0 = true -> truediv a b = Raise ZeroDivisionError.
Proof. intros Hb. unfold truediv. now rewrite Hb. Qed.

(** The code's guarded formula never raises and is the design's. *)
Lemma safe_pct_change_design (current previous : float) :
  _safe_pct_change current previous = Ok (Design.percent_change current previous).
Proof.
  unfold _safe_pct_change, Design.percent_change.
  destruct (PrimFloat.eqb previous 0) eqn:Hz.
  - reflexivity.
  - rewrite (truediv_nonzero _ _ Hz). reflexivity.
Qed.

Lemma safe_pct_change_is_ok (current previous : float) :
  is_ok (_safe_pct_change current previous) = true.
Proof. now rewrite safe_pct_change_design. Qed.

End PercentChange.

(** C7: the percent-change computation is total.  For every pair of rates it
    returns, without raising, [0.0] when [previous == 0] and
    [round(((current - previous) / previous) * 100, 4)] otherwise; the
    unguarded quotient of [10.0] by [0.0] would be an error.  For the
    consecutive rates [0.0, 10.0] the second day's change is [0.0]. *)
Theorem safe_pct_change_total (current previous : float) :
  _safe_pct_change current previous
  = Ok (if PrimFloat.eqb previous 0 then 0%float
        else round (((current - previous) / previous) * 100) 4)
  /\ truediv (10 - 0) 0 = Raise ZeroDivisionError
  /\ _safe_pct_change 10 0 = Ok 0%float
  /\ PrimFloat.is_infinity 0 = false
  /\ option_map (map pct_change)
       (match _build_day_records
                [("2025-01-01", [("USD", 0%float)]);
                 ("2025-01-02", [("USD", 10%float)])]%string with
        | Ok records => Some records
        | Raise _ => None
        end)
     = Some [None; Some 0%float].
Proof.
  split; [ exact (safe_pct_change_design current previous) | ].
  split_all; vm_compute; reflexivity.
Qed.

Section Totals.

Lemma nth_error_last (A : Type) (xs : list A) (x : A) :
  nth_error (x :: xs) (List.length xs) = Some (last xs x).
Proof.
  revert x. induction xs as [| y ys IH]; intros x.
  - reflexivity.
  - cbn [List.length nth_error]. rewrite IH.
    destruct ys as [| z zs]; [ reflexivity | ].
    f_equal. clear IH. revert z. induction zs as [| u us IHu]; intros z.
    + reflexivity.
    + change (last (z :: u :: us) y) with (last (u :: us) y).
      change (last (y :: z :: u :: us) x) with (last (u :: us) x).
      specialize (IHu u).
      change (last (y :: u :: us) x) with (last (u :: us) x) in IHu.
      destruct us; [ reflexivity | exact IHu ].
Qed.

Lemma list_getitem_first (A : Type) (x : A) (xs : list A) :
  list_getitem (x :: xs) 0 = Ok x.
Proof.
  unfold list_getitem. cbn [List.length].
  replace (0 <? 0)%Z with false by reflexivity.
  replace ((0 <? 0) || (Z.of_nat (S (List.length xs)) <=? 0))%Z with false.
  - reflexivity.
  - symmetry. apply orb_false_iff. split; [ reflexivity | ].
    apply Z.leb_gt. lia.
Qed.

Lemma list_getitem_last (A : Type) (x : A) (xs : list A) :
  list_getitem (x :: xs) (-1) = Ok (last xs x).
Proof.
  unfold list_getitem.
  replace (-1 <? 0)%Z with true by reflexivity.
  set (n := Z.of_nat (List.length (x :: xs))).
  assert (Hn : (-1 + n = Z.of_nat (List.length xs))%Z)
    by (subst n; cbn [List.length]; lia).
  rewrite Hn.
  replace ((Z.of_nat (List.length xs) <? 0) || (n <=? Z.of_nat (List.length xs)))%Z
    with false.
  - rewrite Nat2Z.id. now rewrite nth_error_last.
  - symmetry. apply orb_false_iff. split.
    + apply Z.ltb_ge. lia.
    + apply Z.leb_gt. subst n. cbn [List.length]. lia.
Qed.

Lemma build_totals_cons (r : DayRecord) (rs : list DayRecord) :
  _build_totals (r :: rs)
  = Ok {| start_rate := rate r;
          end_rate := rate (last rs r);
          total_pct_change := Design.percent_change (rate (last rs r)) (rate r);
          mean_rate := Design.mean_rate_of (map rate (r :: rs)) |}.
Proof.
  unfold _build_totals.
  rewrite list_getitem_first, list_getitem_last.
  cbn [bind]. rewrite safe_pct_change_design. cbn [bind].
  unfold Design.mean_rate_of. rewrite length_map.
  reflexivity.
Qed.

End Totals.

(** C8: for every DayRecord sequence the totals are: the first record's rate,
    the last record's rate, the guarded percent change of (end, start) and
    the mean of all rates rounded to 6 places; all four are [0.0] on the
    empty sequence; the rates 1.03 and 1.05 of 2025-01-02 and 2025-01-03 give
    1.03, 1.05, 1.9417 and 1.04. *)
Theorem build_totals_spec (r : DayRecord) (rs : list DayRecord) :
  _build_totals [] = Ok Design.zero_totals
  /\ _build_totals (r :: rs)
     = Ok {| start_rate := rate r;
             end_rate := rate (last rs r);
             total_pct_change := Design.percent_change (rate (last rs r)) (rate r);
             mean_rate := Design.mean_rate_of (map rate (r :: rs)) |}
  /\ bind (_build_day_records Examples.rates_jan) _build_totals
     = Ok {| start_rate := 1.03; end_rate := 1.05;
             total_pct_change := 1.9417; mean_rate := 1.04 |}.
Proof.
  split; [ reflexivity | ].
  split; [ apply build_totals_cons | ].
  vm_compute. reflexivity.
Qed.

(* ------------------------------------------------------------------ *)
(** * Statistics: the day records                                      *)
(* ------------------------------------------------------------------ *)

Section StringOrder.

Local Abbreviation le := (fun a b : string => is_true (String.leb a b)).
Local Abbreviation lt := (fun a b : string => is_true (String.ltb a b)).

Lemma leb_cases (a b : string) :
  String.leb a b = true <-> String_as_OT.lt a b \/ a = b.
Proof.
  unfold String.leb.
  pose proof (String_as_OT.cmp_lt a b) as Hlt.
  pose proof (String_as_OT.cmp_eq a b) as Heq.
  unfold String_as_OT.cmp in *.
  destruct (String.compare a b) eqn:Hc; split; intros H; try discriminate.
  - right. now apply Heq.
  - reflexivity.
  - left. now apply Hlt.
  - reflexivity.
  - destruct H as [H | H].
    + apply Hlt in H. discriminate.
    + apply Heq in H. discriminate.
Qed.

Lemma leb_trans : Transitive le.
Proof.
  intros a b c Hab Hbc. unfold is_true in *.
  apply leb_cases in Hab. apply leb_cases in Hbc. apply leb_cases.
  destruct Hab as [Hab | ->]; destruct Hbc as [Hbc | ->]; auto.
  left. eapply String_as_OT.lt_trans; eassumption.
Qed.

Lemma leb_neq_ltb (a b : string) :
  String.leb a b = true -> a <> b -> String.ltb a b = true.
Proof.
  intros Hle Hne. apply leb_cases in Hle. destruct Hle as [Hlt | Heq].
  - unfold String.ltb. apply String_as_OT.cmp_lt in Hlt.
    unfold String_as_OT.cmp in Hlt. now rewrite Hlt.
  - contradiction.
Qed.

Lemma sorted_strongly (xs : list string) : StronglySorted le (sorted xs).
Proof. apply StringSort.StronglySorted_sort. exact leb_trans. Qed.

Lemma sorted_permutation (xs : list string) : Permutation xs (sorted xs).
Proof. apply StringSort.Permuted_sort. Qed.

(** A list without repetition that is sorted is strictly sorted. *)
Lemma strongly_sorted_strict (xs : list string) :
  NoDup xs -> StronglySorted le xs -> StronglySorted lt xs.
Proof.
  induction xs as [| x xs IH]; intros Hnd Hs.
  - constructor.
  - inversion Hnd as [| ? ? Hnotin Hnd']; subst.
    apply StronglySorted_inv in Hs. destruct Hs as [Hs Hall].
    constructor; [ now apply IH | ].
    rewrite Forall_forall in Hall |- *.
    intros y Hy. apply leb_neq_ltb; [ now apply Hall | ].
    intros ->. contradiction.
Qed.

(** Two sorted arrangements of the same items are the same list. *)
Lemma strongly_sorted_unique (xs ys : list string) :
  StronglySorted le xs -> StronglySorted le ys -> Permutation xs ys -> xs = ys.
Proof.
  revert ys. induction xs as [| x xs IH]; intros ys Hx Hy Hp.
  - apply Permutation_nil in Hp. now subst.
  - destruct ys as [| y ys].
    + apply Permutation_sym, Permutation_nil in Hp. discriminate.
    + apply StronglySorted_inv in Hx. destruct Hx as [Hx Hxall].
      apply StronglySorted_inv in Hy. destruct Hy as [Hy Hyall].
      rewrite Forall_forall in Hxall, Hyall.
      assert (Hxy : x = y).
      { assert (Hin_y : In y (x :: xs))
          by (eapply Permutation_in; [ apply Permutation_sym; exact Hp | now left ]).
        assert (Hin_x : In x (y :: ys))
          by (eapply Permutation_in; [ exact Hp | now left ]).
        destruct Hin_y as [-> | Hin_y]; [ reflexivity | ].
        destruct Hin_x as [-> | Hin_x]; [ reflexivity | ].
        apply String.leb_antisym; [ now apply Hxall | now apply Hyall ]. }
      subst y. f_equal. apply IH; try assumption.
      eapply Permutation_cons_inv; exact Hp.
Qed.

(** [sorted] does not depend on the order its argument comes in. *)
Lemma sorted_order_independent (xs ys : list string) :
  Permutation xs ys -> sorted xs = sorted ys.
Proof.
  intros Hp. apply strongly_sorted_unique; try apply sorted_strongly.
  eapply Permutation_trans; [ apply Permutation_sym, sorted_permutation | ].
  eapply Permutation_trans; [ exact Hp | apply sorted_permutation ].
Qed.

End StringOrder.

Section Dict.
Variable V : Type.

Lemma lookup_in_keys (d : dict V) (k : string) :
  In k (keys d) -> exists v, lookup d k = Some v.
Proof.
  induction d as [| [k' v'] d IH]; intros Hin; [ contradiction | ].
  cbn [lookup]. destruct (String.eqb k' k) eqn:He; [ eauto | ].
  destruct Hin as [Heq | Hin]; [ | now apply IH ].
  cbn in Heq. subst. rewrite String.eqb_refl in He. discriminate.
Qed.

Lemma lookup_not_in_keys (d : dict V) (k : string) :
  ~ In k (keys d) -> lookup d k = None.
Proof.
  induction d as [| [k' v'] d IH]; intros Hnin; [ reflexivity | ].
  cbn [lookup]. destruct (String.eqb k' k) eqn:He.
  - apply String.eqb_eq in He. subst. exfalso. apply Hnin. now left.
  - apply IH. intros Hin. apply Hnin. now right.
Qed.

(** With distinct keys a lookup does not depend on the insertion order. *)
Lemma lookup_order_independent (d d' : dict V) (k : string) :
  dict_wf d -> Permutation d d' -> lookup d k = lookup d' k.
Proof.
  intros Hwf Hp. revert Hwf. unfold dict_wf.
  induction Hp as [| [k1 v1] d1 d2 Hp IH
                   | [k1 v1] [k2 v2] d1
                   | d1 d2 d3 Hp12 IH12 Hp23 IH23]; intros Hwf.
  - reflexivity.
  - cbn [lookup]. destruct (String.eqb k1 k); [ reflexivity | ].
    apply IH. now inversion Hwf.
  - cbn [lookup].
    destruct (String.eqb k1 k) eqn:H1, (String.eqb k2 k) eqn:H2; try reflexivity.
    apply String.eqb_eq in H1, H2. subst.
    inversion Hwf as [| ? ? Hnotin _]. exfalso. apply Hnotin. now left.
  - rewrite IH12 by assumption. apply IH23.
    eapply Permutation_NoDup; [ | exact Hwf ].
    unfold keys. now apply Permutation_map.
Qed.

End Dict.


Section DayRecords.

Lemma usd_rate_get (rates : Rates) (d : string) (by_currency : dict float) :
  lookup rates d = Some by_currency ->
  Design.usd_rate rates d = get by_currency "USD" 0%float.
Proof. intros H. unfold Design.usd_rate, get. now rewrite H. Qed.

(** The loop appends, date after date, the records of the design. *)
Lemma build_day_records_loop_design (rates : Rates) (dates : list string) :
  (forall d, In d dates -> In d (keys rates)) ->
  forall records prev_rate,
    _build_day_records_loop rates dates records prev_rate
    = Ok (records ++ Design.day_records rates dates prev_rate).
Proof.
  induction dates as [| d rest IH]; intros Hin records prev_rate.
  - cbn. now rewrite app_nil_r.
  - cbn [_build_day_records_loop Design.day_records].
    destruct (lookup_in_keys _ rates d (Hin d (or_introl eq_refl))) as [bc Hbc].
    unfold getitem. rewrite Hbc. cbn [bind].
    rewrite (usd_rate_get _ _ _ Hbc).
    set (r := get bc "USD" 0%float).
    assert (Hpct :
      match prev_rate with
      | Some prev => bind (_safe_pct_change r prev) (fun c => Ok (Some c))
      | None => Ok None
      end = Ok (option_map (Design.percent_change r) prev_rate)).
    { destruct prev_rate as [p |]; [ | reflexivity ].
      now rewrite safe_pct_change_design. }
    rewrite Hpct. cbn [bind].
    rewrite IH by (intros d' Hd'; apply Hin; now right).
    now rewrite <- app_assoc.
Qed.

Lemma day_records_dates (rates : Rates) (dates : list string) (prev : option float) :
  map date (Design.day_records rates dates prev) = dates.
Proof.
  revert prev. induction dates as [| d rest IH]; intros prev; cbn.
  - reflexivity.
  - now rewrite IH.
Qed.

Lemma day_records_rates (rates : Rates) (dates : list string) (prev : option float) :
  Forall (fun r => rate r = Design.usd_rate rates (date r))
         (Design.day_records rates dates prev).
Proof.
  revert prev. induction dates as [| d rest IH]; intros prev; cbn.
  - constructor.
  - constructor; [ reflexivity | apply IH ].
Qed.

Lemma day_records_after_first (rates : Rates) (dates : list string) (p : float) :
  Forall (fun r => exists c, pct_change r = Some c)
         (Design.day_records rates dates (Some p)).
Proof.
  revert p. induction dates as [| d rest IH]; intros p; cbn.
  - constructor.
  - constructor; [ eexists; reflexivity | apply IH ].
Qed.

Lemma day_records_ext (rates rates' : Rates) (dates : list string) (prev : option float) :
  (forall d, lookup rates d = lookup rates' d) ->
  Design.day_records rates dates prev = Design.day_records rates' dates prev.
Proof.
  intros Hext. revert prev. induction dates as [| d rest IH]; intros prev; cbn.
  - reflexivity.
  - unfold Design.usd_rate. rewrite Hext. now rewrite IH.
Qed.

Lemma build_day_records_design (rates : Rates) :
  _build_day_records rates
  = Ok (Design.day_records rates (sorted (keys rates)) None).
Proof.
  unfold _build_day_records.
  rewrite build_day_records_loop_design; [ reflexivity | ].
  intros d Hd. eapply Permutation_in; [ | exact Hd ].
  apply Permutation_sym, sorted_permutation.
Qed.

End DayRecords.

(** C6: for every raw rates mapping (a dict: its date keys are distinct), in
    whatever order its keys come, the builder returns a sequence with exactly
    one record per date key, strictly ascending by date, each record's rate
    being the USD entry of its date or [0.0] when there is none,
    [pct_change] null on the first record and a number on every other; the
    sequence is the design's, and is the same for every reordering of the
    mapping. *)
Theorem build_day_records_sorted (rates : Rates) (Hwf : dict_wf rates) :
  exists records,
    _build_day_records rates = Ok records
    /\ Permutation (map date records) (keys rates)
    /\ NoDup (map date records)
    /\ StronglySorted (fun a b => String.ltb a b = true) (map date records)
    /\ Forall (fun r => rate r = Design.usd_rate rates (date r)) records
    /\ match records with
       | [] => True
       | first :: others =>
           pct_change first = None
           /\ Forall (fun r => exists c, pct_change r = Some c) others
       end
    /\ records = Design.day_records rates (sorted (keys rates)) None
    /\ (forall rates', Permutation rates rates' ->
                       _build_day_records rates' = Ok records).
Proof.
  exists (Design.day_records rates (sorted (keys rates)) None).
  assert (Hperm : Permutation (sorted (keys rates)) (keys rates))
    by apply Permutation_sym, sorted_permutation.
  assert (Hnd : NoDup (sorted (keys rates)))
    by (eapply Permutation_NoDup; [ apply sorted_permutation | exact Hwf ]).
  split; [ apply build_day_records_design | ].
  rewrite day_records_dates.
  split; [ exact Hperm | ].
  split; [ exact Hnd | ].
  split; [ apply strongly_sorted_strict; [ exact Hnd | apply sorted_strongly ] | ].
  split; [ apply day_records_rates | ].
  split.
  { destruct (sorted (keys rates)) as [| d rest]; cbn; [ exact I | ].
    split; [ reflexivity | apply day_records_after_first ]. }
  split; [ reflexivity | ].
  intros rates' Hp. rewrite build_day_records_design. f_equal.
  rewrite <- (sorted_order_independent (keys rates) (keys rates'))
    by (unfold keys; now apply Permutation_map).
  symmetry. apply day_records_ext.
  intros d. now apply lookup_order_independent.
Qed.

Lemma build_day_records_sorted_witness :
  dict_wf Examples.rates_guard
  /\ exists records,
       _build_day_records Examples.rates_guard = Ok records
       /\ map date records = ["2025-01-01"; "2025-01-02"; "2025-01-03"]%string
       /\ map rate records = [0; 10; 0]%float.
Proof.
  assert (Hwf : dict_wf Examples.rates_guard).
  { unfold dict_wf. cbn. repeat constructor; cbn; intuition discriminate. }
  split; [ exact Hwf | ].
  destruct (build_day_records_sorted Examples.rates_guard Hwf)
    as (records & Hrun & _ & _ & _ & _ & _ & Heq & _).
  exists records. split; [ exact Hrun | ].
  rewrite Heq. split; vm_compute; reflexivity.
Defined.


(* ------------------------------------------------------------------ *)
(** * The network fetcher and its retry policy                         *)
(* ------------------------------------------------------------------ *)

Lemma bindM_sleep (A : Type) (d : Q) (m : M A) (s : State) :
  (sleep d ;;; m)%M s
  = m {| _cache := _cache s; timer_reads := timer_reads s;
         requests := requests s; sleeps := d :: sleeps s;
         fallback_loads := fallback_loads s |}.
Proof. reflexivity. Qed.

(** Every timeout is an [HTTPError]: the second class of the decorator's
    tuple adds nothing to the first. *)
Lemma retry_if_is_HTTPError (e : Exn) :
  retry_if_exception_type e = isinstance e httpx_HTTPError.
Proof. destruct e; reflexivity. Qed.

Ltac close_attempt :=
  first [ lia | reflexivity | assumption
        | intros; lia
        | intros; discriminate
        | let He := fresh in intros ? He ?; injection He as <-; congruence ].

Section NetworkFetcher.
Variable w : World.
Variable url : string.
Variable params : dict string.

Local Abbreviation rq := (Build_Request url params).

(** The body sends one GET and comes to that GET's outcome. *)
Lemma fetch_body_outcome (s : State) :
  _fetch_from_api_body w url params s
  = (nth_outcome w rq s 0,
     {| _cache := _cache s; timer_reads := timer_reads s;
        requests := rq :: requests s; sleeps := sleeps s;
        fallback_loads := fallback_loads s |}).
Proof.
  unfold _fetch_from_api_body, nth_outcome, outcome, bindM, client_get, lift.
  rewrite Nat.add_0_r.
  destruct (http_get w (List.length (requests s)) rq) as [e | r]; [ reflexivity | ].
  destruct (Httpx.raise_for_status r) as [r' | e]; reflexivity.
Qed.

Lemma nth_outcome_shift (s s' : State) (i : nat) :
  requests s' = rq :: requests s ->
  nth_outcome w rq s' i = nth_outcome w rq s (S i).
Proof.
  intros H. unfold nth_outcome. rewrite H. cbn [List.length].
  now rewrite Nat.add_succ_comm.
Qed.

(** The retry loop with [left] attempts allowed after the current one. *)
Lemma attempt_spec (wait : nat -> Q) (left : nat) :
  forall (attempt_number : nat) (s : State),
    let run := Tenacity.attempt retry_if_exception_type wait
                 (_fetch_from_api_body w url params) left attempt_number s in
    exists n,
      (1 <= n <= S left)%nat
      /\ requests (snd run) = repeat rq n ++ requests s
      /\ fst run = nth_outcome w rq s (n - 1)
      /\ (forall i, (i + 1 < n)%nat ->
            exists e, nth_outcome w rq s i = Raise e
                      /\ isinstance e httpx_HTTPError = true)
      /\ (forall e, fst run = Raise e ->
                    isinstance e httpx_HTTPError = true -> n = S left)
      /\ _cache (snd run) = _cache s
      /\ timer_reads (snd run) = timer_reads s
      /\ fallback_loads (snd run) = fallback_loads s.
Proof.
  induction left as [| left IH]; intros attempt_number s run; subst run.
  - exists 1%nat. cbn [Tenacity.attempt]. rewrite fetch_body_outcome.
    destruct (nth_outcome w rq s 0) as [d | e] eqn:H0;
      [ | destruct (retry_if_exception_type e) ];
      cbn [fst snd requests repeat app Nat.sub _cache timer_reads fallback_loads];
      rewrite H0; repeat split; close_attempt.
  - cbn [Tenacity.attempt]. rewrite fetch_body_outcome.
    destruct (nth_outcome w rq s 0) as [d | e] eqn:H0.
    + exists 1%nat.
      cbn [fst snd requests repeat app Nat.sub _cache timer_reads fallback_loads].
      rewrite H0. repeat split; close_attempt.
    + rewrite retry_if_is_HTTPError.
      destruct (isinstance e httpx_HTTPError) eqn:Hr.
      * rewrite bindM_sleep.
        match goal with
        | |- context [Tenacity.attempt _ _ _ left ?k ?s1] =>
            specialize (IH k s1); set (s' := s1) in *
        end.
        cbv zeta in IH.
        destruct IH as (n & Hn & Hreq & Hres & Hprev & Hlast & Hc & Ht & Hf).
        assert (Hs' : requests s' = rq :: requests s) by reflexivity.
        exists (S n).
        split; [ lia | ].
        split.
        { rewrite Hreq, Hs'.
          change (rq :: requests s) with ([rq] ++ requests s).
          now rewrite app_assoc, <- repeat_cons. }
        split.
        { rewrite Hres, (nth_outcome_shift s s' _ Hs'). f_equal. lia. }
        split.
        { intros [| i] Hi.
          - exists e. now split.
          - destruct (Hprev i ltac:(lia)) as (e' & He' & Hi').
            exists e'. split; [ | exact Hi' ].
            now rewrite <- (nth_outcome_shift s s' _ Hs'). }
        split; [ intros e' He' Hi'; f_equal; now apply (Hlast e') | ].
        repeat split; assumption.
      * exists 1%nat.
        cbn [fst snd requests repeat app Nat.sub _cache timer_reads fallback_loads].
        rewrite H0. repeat split; close_attempt.
Qed.

(** The fetcher touches neither the cache, nor the clock, nor the file. *)
Lemma fetch_from_api_frame (s : State) :
  _cache (snd (_fetch_from_api w url params s)) = _cache s
  /\ timer_reads (snd (_fetch_from_api w url params s)) = timer_reads s
  /\ fallback_loads (snd (_fetch_from_api w url params s)) = fallback_loads s.
Proof.
  destruct (attempt_spec (Tenacity.wait_exponential (1 # 2) (1 # 2) 4) 2 1 s)
    as (n & _ & _ & _ & _ & _ & Hc & Ht & Hf).
  now repeat split.
Qed.

End NetworkFetcher.

(** C1, as the code has it: a call makes between 1 and 3 attempts, each one
    GET, and comes to the outcome of the last; an attempt is followed by
    another exactly when it failed with an [httpx.HTTPError] and fewer than 3
    were made.  Timeouts, connection failures and every status outside 2xx
    (4xx as much as 5xx) are such errors; a body that is not JSON is not, and
    is never retried. *)
Theorem fetch_from_api_retries (w : World) (url : string) (params : dict string)
    (s : State) :
  exists n,
    (1 <= n <= 3)%nat
    /\ requests (snd (_fetch_from_api w url params s))
       = repeat (Build_Request url params) n ++ requests s
    /\ fst (_fetch_from_api w url params s)
       = nth_outcome w (Build_Request url params) s (n - 1)
    /\ (forall i, (i + 1 < n)%nat ->
          exists e, nth_outcome w (Build_Request url params) s i = Raise e
                    /\ isinstance e httpx_HTTPError = true)
    /\ (forall e, fst (_fetch_from_api w url params s) = Raise e ->
                  isinstance e httpx_HTTPError = true -> n = 3%nat)
    /\ (forall e, isinstance e httpx_TimeoutException = true
                  \/ isinstance e httpx_NetworkError = true ->
                  isinstance e httpx_HTTPError = true)
    /\ (forall r, Httpx.is_success (status_code r) = false ->
                  outcome (GetReturns r) = Raise (HTTPStatusError (status_code r))
                  /\ isinstance (HTTPStatusError (status_code r)) httpx_HTTPError = true)
    /\ (forall r, Httpx.is_success (status_code r) = true -> body r = None ->
                  outcome (GetReturns r) = Raise JSONDecodeError
                  /\ isinstance JSONDecodeError httpx_HTTPError = false).
Proof.
  destruct (attempt_spec w url params (Tenacity.wait_exponential (1 # 2) (1 # 2) 4) 2 1 s)
    as (n & Hn & Hreq & Hres & Hprev & Hlast & _).
  exists n.
  split; [ lia | ]. split; [ exact Hreq | ]. split; [ exact Hres | ].
  split; [ exact Hprev | ]. split; [ exact Hlast | ].
  split.
  { intros e [He | He]; destruct e; try discriminate He; reflexivity. }
  split.
  - intros r Hr. unfold outcome, Httpx.raise_for_status. rewrite Hr. now split.
  - intros r Hr Hb. unfold outcome, Httpx.raise_for_status, Httpx.json.
    rewrite Hr. cbn [bind]. rewrite Hb. now split.
Qed.

(** C1 as stated fails: a 404, a client error, is retried twice. *)
Lemma fetch_from_api_retries_404 :
  nth_outcome Examples.w_404 (request_of Examples.jan_1 Examples.jan_3) Examples.s0 0
  = Raise (HTTPStatusError 404)
  /\ fst (network_step Examples.w_404 Examples.jan_1 Examples.jan_3 Examples.s0)
     = Raise (HTTPStatusError 404)
  /\ List.length
       (requests (snd (network_step Examples.w_404 Examples.jan_1 Examples.jan_3
                         Examples.s0)))
     = 3%nat.
Proof. split_all; vm_compute; reflexivity. Qed.

(** A 200 whose body is not JSON is fetched once and raised as it is. *)
Lemma malformed_body_fetched_once :
  fst (network_step Examples.w_malformed Examples.jan_1 Examples.jan_3 Examples.s0)
  = Raise JSONDecodeError
  /\ List.length
       (requests (snd (network_step Examples.w_malformed Examples.jan_1
                         Examples.jan_3 Examples.s0)))
     = 1%nat.
Proof. split_all; vm_compute; reflexivity. Qed.


(* ------------------------------------------------------------------ *)
(** * The rate fetch pipeline: cache, network, fallback                *)
(* ------------------------------------------------------------------ *)

Lemma Qltb_lt (a b : Q) : Qltb a b = true <-> (a < b)%Q.
Proof.
  unfold Qltb. rewrite negb_true_iff. split; intros H.
  - apply Qnot_le_lt. intros Hle. apply Qle_bool_iff in Hle. congruence.
  - destruct (Qle_bool b a) eqn:Hb; [ | reflexivity ].
    apply Qle_bool_iff in Hb. exfalso. exact (Qlt_not_le _ _ H Hb).
Qed.

Section Cache.
Variable w : World.

(** An insertion into the module's cache never raises; it leaves the new
    entry last, expiring [ttl] after the reading it took. *)
Lemma setitem_run (k : string) (v : Document) (s : State) :
  Cachetools.setitem w maxsize ttl k v s
  = (Ok tt,
     {| _cache :=
          Cachetools.inserted maxsize ttl (monotonic w (timer_reads s)) k v (_cache s);
        timer_reads := S (timer_reads s);
        requests := requests s; sleeps := sleeps s;
        fallback_loads := fallback_loads s |}).
Proof. reflexivity. Qed.

Lemma find_link_relinked (k : string) (l : Link) (c : list Link) :
  key l = k -> Cachetools.find_link k (Cachetools.unlink k c ++ [l]) = Some l.
Proof.
  intros Hk. unfold Cachetools.find_link, Cachetools.unlink.
  induction c as [| l' c IH]; cbn.
  - rewrite Hk, String.eqb_refl. reflexivity.
  - destruct (String.eqb (key l') k) eqn:He; cbn; [ exact IH | ].
    rewrite He. exact IH.
Qed.

Lemma find_link_key (k : string) (l : Link) (c : list Link) :
  Cachetools.find_link k c = Some l -> key l = k.
Proof.
  intros H. apply find_some in H. destruct H as [_ H]. now apply String.eqb_eq.
Qed.

(** A read of a live entry returns its value and makes it the most recently
    used. *)
Lemma getitem_live (k : string) (l : Link) (s : State) :
  Cachetools.find_link k (_cache s) = Some l ->
  (monotonic w (timer_reads s) < expires l)%Q ->
  Cachetools.getitem w k s
  = (Ok (val l),
     {| _cache := Cachetools.unlink k (_cache s) ++ [l];
        timer_reads := S (timer_reads s);
        requests := requests s; sleeps := sleeps s;
        fallback_loads := fallback_loads s |}).
Proof.
  intros Hfind Hlive. unfold Cachetools.getitem. rewrite Hfind.
  unfold bindM, timer, set_cache. cbn.
  apply Qltb_lt in Hlive. now rewrite Hlive.
Qed.

End Cache.

Section Pipeline.
Variable w : World.
Variables start_date end_date : string.

Local Abbreviation cache_key := (cache_key_of start_date end_date).

(** A lookup never raises, and reads the clock only for a key it holds. *)
Lemma lookup_step_cases (s : State) :
  match entry start_date end_date s with
  | None => lookup_step w start_date end_date s = (Ok false, s)
  | Some l =>
      lookup_step w start_date end_date s
      = (Ok (Qltb (monotonic w (timer_reads s)) (expires l)),
         {| _cache := _cache s; timer_reads := S (timer_reads s);
            requests := requests s; sleeps := sleeps s;
            fallback_loads := fallback_loads s |})
  end.
Proof.
  unfold lookup_step, entry, Cachetools.contains.
  destruct (Cachetools.find_link cache_key (_cache s)); reflexivity.
Qed.

Lemma lookup_step_cache (s : State) :
  _cache (snd (lookup_step w start_date end_date s)) = _cache s.
Proof.
  pose proof (lookup_step_cases s) as H.
  destruct (entry start_date end_date s); now rewrite H.
Qed.

(** [fetch_rates], path by path. *)
Lemma fetch_rates_unfold (s : State) :
  fetch_rates w start_date end_date s
  = match lookup_step w start_date end_date s with
    | (Ok true, s1) => Cachetools.getitem w cache_key s1
    | (Ok false, s1) => miss_path w start_date end_date s1
    | (Raise e, s1) => (Raise e, s1)
    end.
Proof.
  unfold fetch_rates, lookup_step, miss_path. unfold bindM at 1.
  destruct (Cachetools.contains w cache_key s) as [[[|] | e] s1]; try reflexivity.
  unfold bindM at 1. unfold try_except.
  destruct (_fetch_from_api w _ _ s1) as [[data | e] s2].
  - unfold bindM. rewrite setitem_run. reflexivity.
  - unfold _load_fallback, read_sample_fx at 1.
    destruct (sample_fx w (fallback_loads s2)) as [data | e']; [ | reflexivity ].
    unfold bindM. rewrite setitem_run. reflexivity.
Qed.

(** On a miss whose network fetch raises, the call is the fallback load. *)
Lemma fetch_rates_degraded (s : State) (e : Exn) :
  is_miss w start_date end_date s ->
  fst (network_step w start_date end_date s) = Raise e ->
  fetch_rates w start_date end_date s
  = match sample_fx w (fallback_loads (snd (network_step w start_date end_date s))) with
    | Ok data =>
        (Ok data,
         snd (Cachetools.setitem w maxsize ttl cache_key data
                (snd (read_sample_fx w (snd (network_step w start_date end_date s))))))
    | Raise e' =>
        (Raise e', snd (read_sample_fx w (snd (network_step w start_date end_date s))))
    end.
Proof.
  unfold is_miss, network_step. intros Hmiss Hnet.
  rewrite fetch_rates_unfold. unfold miss_path.
  destruct (lookup_step w start_date end_date s) as [r s1].
  cbn [fst snd] in *. subst r.
  destruct (_fetch_from_api w _ _ s1) as [r2 s2].
  cbn [fst snd] in *. subst r2. reflexivity.
Qed.

End Pipeline.

(** C2: for every range whose key misses the cache, if the network fetcher
    raises (retries included), [fetch_rates] loads the fallback once, sends
    nothing more, and its result is the loader's: the fallback document when
    there is one, never the network's error. *)
Theorem fetch_rates_falls_back (w : World) (start_date end_date : string)
    (s : State) (e : Exn)
    (Hmiss : is_miss w start_date end_date s)
    (Hnet : fst (network_step w start_date end_date s) = Raise e) :
  fst (fetch_rates w start_date end_date s)
  = sample_fx w (fallback_loads (snd (network_step w start_date end_date s)))
  /\ fallback_loads (snd (fetch_rates w start_date end_date s))
     = S (fallback_loads s)
  /\ requests (snd (fetch_rates w start_date end_date s))
     = requests (snd (network_step w start_date end_date s))
  /\ (forall data,
        sample_fx w (fallback_loads (snd (network_step w start_date end_date s)))
        = Ok data ->
        fst (fetch_rates w start_date end_date s) = Ok data).
Proof.
  rewrite (fetch_rates_degraded w start_date end_date s e Hmiss Hnet).
  assert (Hloads :
    fallback_loads (snd (network_step w start_date end_date s)) = fallback_loads s).
  { unfold network_step.
    destruct (fetch_from_api_frame w (request_url start_date end_date) request_params
                (snd (lookup_step w start_date end_date s))) as (_ & _ & ->).
    pose proof (lookup_step_cases w start_date end_date s) as Hl.
    destruct (entry start_date end_date s); now rewrite Hl. }
  destruct (sample_fx w (fallback_loads (snd (network_step w start_date end_date s))))
    as [data | e'] eqn:Hfb.
  - rewrite setitem_run. cbn [fst snd fallback_loads requests read_sample_fx].
    rewrite Hloads. repeat split. intros data' H. exact H.
  - cbn [fst snd fallback_loads requests read_sample_fx].
    rewrite Hloads. repeat split. intros data' H. discriminate H.
Qed.

Lemma fetch_rates_falls_back_witness :
  is_miss Examples.w_down Examples.jan_1 Examples.jan_3 Examples.s0
  /\ fst (network_step Examples.w_down Examples.jan_1 Examples.jan_3 Examples.s0)
     = Raise ConnectError
  /\ fst (fetch_rates Examples.w_down Examples.jan_1 Examples.jan_3 Examples.s0)
     = Ok Examples.doc_sample.
Proof.
  assert (Hmiss : is_miss Examples.w_down Examples.jan_1 Examples.jan_3 Examples.s0)
    by reflexivity.
  assert (Hnet : fst (network_step Examples.w_down Examples.jan_1 Examples.jan_3
                        Examples.s0) = Raise ConnectError)
    by (vm_compute; reflexivity).
  split; [ exact Hmiss | ]. split; [ exact Hnet | ].
  destruct (fetch_rates_falls_back Examples.w_down Examples.jan_1 Examples.jan_3
              Examples.s0 ConnectError Hmiss Hnet) as (_ & _ & _ & Hdoc).
  apply Hdoc. reflexivity.
Defined.

Section Summary.
Variable w : World.
Variables start_date end_date : string.
Variable breakdown : BreakdownChoice.

(** [get_summary] in terms of what [fetch_rates] returns. *)
Lemma get_summary_unfold (s : State) :
  get_summary w start_date end_date breakdown s
  = match fetch_rates w start_date end_date s with
    | (Ok data, s') =>
        (bind (_build_day_records (get_rates data)) (fun records =>
           bind (_build_totals records) (fun totals =>
             Ok (SummaryResponse_init start_date end_date (value breakdown)
                   (if BreakdownChoice_eqb breakdown day then Some records else None)
                   totals))),
         s')
    | (Raise e, s') => (Raise e, s')
    end.
Proof.
  unfold get_summary. unfold bindM at 1.
  destruct (fetch_rates w start_date end_date s) as [[data | e] s']; [ | reflexivity ].
  unfold bindM, lift, ret.
  destruct (_build_day_records (get_rates data)) as [records | e]; [ | reflexivity ].
  cbn [bind].
  destruct (_build_totals records) as [totals | e]; reflexivity.
Qed.


End Summary.

(** C5: if the network fetch and the fallback load both fail, [fetch_rates]
    and with it [get_summary] raise the loader's error as it is, and leave
    the cache as it was; no response, partial or null, is returned. *)
Theorem fallback_error_propagates (w : World) (start_date end_date : string)
    (breakdown : BreakdownChoice) (s : State) (e_net e_fallback : Exn)
    (Hmiss : is_miss w start_date end_date s)
    (Hnet : fst (network_step w start_date end_date s) = Raise e_net)
    (Hfallback :
       sample_fx w (fallback_loads (snd (network_step w start_date end_date s)))
       = Raise e_fallback) :
  fst (fetch_rates w start_date end_date s) = Raise e_fallback
  /\ fst (get_summary w start_date end_date breakdown s) = Raise e_fallback
  /\ (forall response,
        fst (get_summary w start_date end_date breakdown s) <> Ok response)
  /\ _cache (snd (get_summary w start_date end_date breakdown s)) = _cache s.
Proof.
  assert (Hrun :
    fetch_rates w start_date end_date s
    = (Raise e_fallback,
       snd (read_sample_fx w (snd (network_step w start_date end_date s))))).
  { rewrite (fetch_rates_degraded w start_date end_date s e_net Hmiss Hnet).
    now rewrite Hfallback. }
  rewrite get_summary_unfold, Hrun. cbn [fst snd].
  split; [ reflexivity | ]. split; [ reflexivity | ].
  split; [ intros response H; discriminate H | ].
  cbn [read_sample_fx snd _cache]. unfold network_step.
  destruct (fetch_from_api_frame w (request_url start_date end_date) request_params
              (snd (lookup_step w start_date end_date s))) as (-> & _ & _).
  apply lookup_step_cache.
Qed.

Lemma fallback_error_propagates_witness :
  is_miss Examples.w_dead Examples.jan_1 Examples.jan_3 Examples.s0
  /\ fst (network_step Examples.w_dead Examples.jan_1 Examples.jan_3 Examples.s0)
     = Raise ConnectError
  /\ fst (get_summary Examples.w_dead Examples.jan_1 Examples.jan_3 day Examples.s0)
     = Raise OSError.
Proof.
  assert (Hmiss : is_miss Examples.w_dead Examples.jan_1 Examples.jan_3 Examples.s0)
    by reflexivity.
  assert (Hnet : fst (network_step Examples.w_dead Examples.jan_1 Examples.jan_3
                        Examples.s0) = Raise ConnectError)
    by (vm_compute; reflexivity).
  split; [ exact Hmiss | ]. split; [ exact Hnet | ].
  apply (fallback_error_propagates Examples.w_dead Examples.jan_1 Examples.jan_3 day
           Examples.s0 ConnectError OSError Hmiss Hnet).
  reflexivity.
Defined.

(** C9: every [get_summary] call that returns gives a response with base
    ["EUR"] and target ["USD"], the range and the breakdown it was asked for,
    the totals of the records built from the fetched document, and in [days]
    those records when the breakdown is [day] and null when it is [none]. *)
Theorem get_summary_shape (w : World) (start_date end_date : string)
    (breakdown : BreakdownChoice) (s : State) (response : SummaryResponse)
    (Hok : fst (get_summary w start_date end_date breakdown s) = Ok response) :
  base response = "EUR"%string
  /\ target response = "USD"%string
  /\ Schemas.start_date response = start_date
  /\ Schemas.end_date response = end_date
  /\ Schemas.breakdown response = value breakdown
  /\ exists data records,
       fst (fetch_rates w start_date end_date s) = Ok data
       /\ _build_day_records (get_rates data) = Ok records
       /\ _build_totals records = Ok (totals response)
       /\ days response = match breakdown with
                          | day => Some records
                          | none => None
                          end
       /\ (days response = Some records <-> breakdown = day).
Proof.
  rewrite get_summary_unfold in Hok.
  destruct (fetch_rates w start_date end_date s) as [[data | e] s'];
    cbn [fst] in Hok; [ | discriminate Hok ].
  destruct (_build_day_records (get_rates data)) as [records | e] eqn:Hrec;
    cbn [bind] in Hok; [ | discriminate Hok ].
  destruct (_build_totals records) as [tot | e] eqn:Htot;
    cbn [bind] in Hok; [ | discriminate Hok ].
  injection Hok as <-. cbn.
  repeat (split; [ reflexivity | ]).
  exists data, records.
  split; [ reflexivity | ]. split; [ exact Hrec | ]. split; [ exact Htot | ].
  destruct breakdown; cbn; (split; [ reflexivity | ]); split; intros H;
    try reflexivity; discriminate H.
Qed.

Lemma get_summary_shape_witness :
  exists response,
    fst (get_summary Examples.w_flaky Examples.jan_1 Examples.jan_3 none Examples.s0)
    = Ok response
    /\ base response = "EUR"%string
    /\ target response = "USD"%string.
Proof.
  eexists.
  assert (Hok : fst (get_summary Examples.w_flaky Examples.jan_1 Examples.jan_3 none
                       Examples.s0) = Ok _)
    by (vm_compute; reflexivity).
  split; [ exact Hok | ].
  destruct (get_summary_shape Examples.w_flaky Examples.jan_1 Examples.jan_3 none
              Examples.s0 _ Hok) as (Hbase & Htarget & _).
  split; assumption.
Defined.

(** C10: when the fetched document has no ["rates"] entry, [get_summary]
    does not fail: the document counts as an empty mapping, the record
    sequence built from it is empty (and is what [days] holds under [day]),
    and the four totals are [0.0]. *)
Theorem get_summary_without_rates (w : World) (start_date end_date : string)
    (breakdown : BreakdownChoice) (s : State) (data : Document)
    (Hfetch : fst (fetch_rates w start_date end_date s) = Ok data)
    (Hnone : doc_rates data = None) :
  get_rates data = []
  /\ _build_day_records (get_rates data) = Ok []
  /\ fst (get_summary w start_date end_date breakdown s)
     = Ok (SummaryResponse_init start_date end_date (value breakdown)
             (match breakdown with
              | day => Some []
              | none => None
              end)
             Design.zero_totals).
Proof.
  assert (Hrates : get_rates data = []) by (unfold get_rates; now rewrite Hnone).
  split; [ exact Hrates | ]. split; [ now rewrite Hrates | ].
  rewrite get_summary_unfold.
  destruct (fetch_rates w start_date end_date s) as [[data' | e] s'];
    cbn [fst] in Hfetch; [ | discriminate Hfetch ].
  injection Hfetch as ->. rewrite Hrates. cbn [fst].
  destruct breakdown; reflexivity.
Qed.

Lemma get_summary_without_rates_witness :
  fst (fetch_rates Examples.w_no_rates Examples.jan_1 Examples.jan_3 Examples.s0)
  = Ok Examples.doc_no_rates
  /\ fst (get_summary Examples.w_no_rates Examples.jan_1 Examples.jan_3 day Examples.s0)
     = Ok (SummaryResponse_init Examples.jan_1 Examples.jan_3 "day" (Some [])
             Design.zero_totals).
Proof.
  assert (Hfetch : fst (fetch_rates Examples.w_no_rates Examples.jan_1 Examples.jan_3
                          Examples.s0) = Ok Examples.doc_no_rates)
    by (vm_compute; reflexivity).
  split; [ exact Hfetch | ].
  apply (get_summary_without_rates Examples.w_no_rates Examples.jan_1 Examples.jan_3
           day Examples.s0 Examples.doc_no_rates Hfetch).
  reflexivity.
Defined.


(* ------------------------------------------------------------------ *)
(** * Cache hits                                                       *)
(* ------------------------------------------------------------------ *)

Section CacheHit.
Variable w : World.
Variables start_date end_date : string.

Local Abbreviation cache_key := (cache_key_of start_date end_date).

(** A call that finds a live entry returns its value, sends nothing and
    loads nothing. *)
Lemma fetch_rates_hit (s : State) (l : Link) :
  entry start_date end_date s = Some l ->
  (monotonic w (timer_reads s) < expires l)%Q ->
  (monotonic w (S (timer_reads s)) < expires l)%Q ->
  fetch_rates w start_date end_date s
  = (Ok (val l),
     {| _cache := Cachetools.unlink cache_key (_cache s) ++ [l];
        timer_reads := S (S (timer_reads s));
        requests := requests s; sleeps := sleeps s;
        fallback_loads := fallback_loads s |}).
Proof.
  intros Hentry H1 H2. rewrite fetch_rates_unfold.
  pose proof (lookup_step_cases w start_date end_date s) as Hl.
  rewrite Hentry in Hl. rewrite Hl.
  apply Qltb_lt in H1. rewrite H1.
  rewrite (getitem_live w cache_key l); [ reflexivity | exact Hentry | exact H2 ].
Qed.

Lemma getitem_expired (k : string) (l : Link) (s : State) :
  Cachetools.find_link k (_cache s) = Some l ->
  Qltb (monotonic w (timer_reads s)) (expires l) = false ->
  Cachetools.getitem w k s
  = (Raise (KeyError k),
     {| _cache := Cachetools.unlink k (_cache s) ++ [l];
        timer_reads := S (timer_reads s);
        requests := requests s; sleeps := sleeps s;
        fallback_loads := fallback_loads s |}).
Proof.
  intros Hfind Hdead. unfold Cachetools.getitem. rewrite Hfind.
  unfold bindM, timer, set_cache.
  cbn [_cache timer_reads requests sleeps fallback_loads].
  now rewrite Hdead.
Qed.

(** What the miss path leaves when it returns: an entry for the key with
    the returned document, expiring [ttl] after the insertion's reading. *)
Lemma miss_path_entry (s1 : State) (d : Document) :
  fst (miss_path w start_date end_date s1) = Ok d ->
  entry start_date end_date (snd (miss_path w start_date end_date s1))
  = Some {| key := cache_key; val := d;
            expires := monotonic w (timer_reads s1) + ttl |}.
Proof.
  unfold miss_path. intros Hok.
  destruct (fetch_from_api_frame w (request_url start_date end_date) request_params s1)
    as (_ & Ht & _).
  destruct (_fetch_from_api w _ _ s1) as [[data | e] s2]; cbn [snd] in Ht.
  - cbn [fst] in Hok. injection Hok as ->.
    rewrite setitem_run. unfold entry, Cachetools.inserted.
    cbn [snd _cache]. rewrite Ht.
    now apply find_link_relinked.
  - destruct (sample_fx w (fallback_loads s2)) as [data | e'];
      cbn [fst] in Hok; [ | discriminate Hok ].
    injection Hok as ->.
    rewrite setitem_run. unfold entry, Cachetools.inserted.
    cbn [snd _cache read_sample_fx timer_reads]. rewrite Ht.
    now apply find_link_relinked.
Qed.

(** After a call that returned, the cache holds the returned document. *)
Lemma fetch_rates_ok_entry (s : State) (d : Document) :
  fst (fetch_rates w start_date end_date s) = Ok d ->
  exists l, entry start_date end_date (snd (fetch_rates w start_date end_date s)) = Some l
            /\ val l = d.
Proof.
  rewrite fetch_rates_unfold.
  pose proof (lookup_step_cases w start_date end_date s) as Hl.
  destruct (entry start_date end_date s) as [l |] eqn:Hentry; rewrite Hl.
  - destruct (Qltb (monotonic w (timer_reads s)) (expires l)) eqn:Hlive.
    + match goal with
      | |- fst (Cachetools.getitem w _ ?s1) = _ -> _ =>
          destruct (Qltb (monotonic w (timer_reads s1)) (expires l)) eqn:Hlive2;
          [ apply Qltb_lt in Hlive2;
            rewrite (getitem_live w cache_key l s1 Hentry Hlive2)
          | rewrite (getitem_expired cache_key l s1 Hentry Hlive2) ]
      end; cbn [fst snd]; intros Hok; [ | discriminate Hok ].
      injection Hok as <-. exists l. split; [ | reflexivity ].
      unfold entry. cbn [_cache]. apply find_link_relinked.
      eapply find_link_key; exact Hentry.
    + intros Hok. eexists. split; [ apply miss_path_entry; exact Hok | reflexivity ].
  - intros Hok. eexists. split; [ apply miss_path_entry; exact Hok | reflexivity ].
Qed.

End CacheHit.

(** C3: after a [fetch_rates] call that returned a document, the cache holds
    that document under the range's key, and a second call for the same range
    whose clock readings fall before that entry's expiry returns the same
    document, sends no request and loads no fallback. *)
Theorem cache_hit_skips_network (w : World) (start_date end_date : string)
    (s : State) (d : Document)
    (Hfirst : fst (fetch_rates w start_date end_date s) = Ok d)
    (Hwindow :
       forall l,
         entry start_date end_date (snd (fetch_rates w start_date end_date s)) = Some l ->
         (monotonic w (timer_reads (snd (fetch_rates w start_date end_date s)))
          < expires l)%Q
         /\ (monotonic w (S (timer_reads (snd (fetch_rates w start_date end_date s))))
             < expires l)%Q) :
  (exists l,
     entry start_date end_date (snd (fetch_rates w start_date end_date s)) = Some l
     /\ val l = d)
  /\ fst (fetch_rates w start_date end_date
            (snd (fetch_rates w start_date end_date s))) = Ok d
  /\ requests (snd (fetch_rates w start_date end_date
                      (snd (fetch_rates w start_date end_date s))))
     = requests (snd (fetch_rates w start_date end_date s))
  /\ fallback_loads (snd (fetch_rates w start_date end_date
                            (snd (fetch_rates w start_date end_date s))))
     = fallback_loads (snd (fetch_rates w start_date end_date s)).
Proof.
  destruct (fetch_rates_ok_entry w start_date end_date s d Hfirst) as (l & Hentry & Hval).
  destruct (Hwindow l Hentry) as [H1 H2].
  split; [ exists l; now split | ].
  rewrite (fetch_rates_hit w start_date end_date _ l Hentry H1 H2).
  cbn [fst snd requests fallback_loads]. rewrite Hval. now repeat split.
Qed.

Lemma cache_hit_skips_network_witness :
  fst (fetch_rates Examples.w_live Examples.jan_1 Examples.jan_3 Examples.s0)
  = Ok Examples.doc_live
  /\ fst (fetch_rates Examples.w_live Examples.jan_1 Examples.jan_3
            (snd (fetch_rates Examples.w_live Examples.jan_1 Examples.jan_3
                    Examples.s0)))
     = Ok Examples.doc_live.
Proof.
  assert (Hfirst : fst (fetch_rates Examples.w_live Examples.jan_1 Examples.jan_3
                          Examples.s0) = Ok Examples.doc_live)
    by (vm_compute; reflexivity).
  split; [ exact Hfirst | ].
  apply (cache_hit_skips_network Examples.w_live Examples.jan_1 Examples.jan_3
           Examples.s0 Examples.doc_live Hfirst).
  intros l Hl. vm_compute in Hl. injection Hl as <-.
  split; vm_compute; reflexivity.
Defined.


(* ------------------------------------------------------------------ *)
(** * Cached fallback data and eviction                                *)
(* ------------------------------------------------------------------ *)

Section Links.

Lemma keys_filter_incl (f : Link -> bool) (c : list Link) :
  incl (map key (List.filter f c)) (map key c).
Proof.
  intros x Hx. apply in_map_iff in Hx. destruct Hx as (l & <- & Hl).
  apply filter_In in Hl. apply in_map. tauto.
Qed.

Lemma keys_filter_NoDup (f : Link -> bool) (c : list Link) :
  NoDup (map key c) -> NoDup (map key (List.filter f c)).
Proof.
  induction c as [| a c IH]; intros Hnd; cbn; [ constructor | ].
  inversion Hnd as [| ? ? Hnotin Hnd']; subst.
  destruct (f a); cbn; [ constructor | ]; auto.
  intros Hin. apply Hnotin. now apply (keys_filter_incl f c).
Qed.

Lemma unlink_not_in (k : string) (c : list Link) :
  ~ In k (map key (Cachetools.unlink k c)).
Proof.
  intros Hin. apply in_map_iff in Hin. destruct Hin as (l & Hk & Hl).
  apply filter_In in Hl. destruct Hl as [_ Hl].
  rewrite Hk, String.eqb_refl in Hl. discriminate.
Qed.

Lemma find_link_none (k : string) (c : list Link) :
  Cachetools.find_link k c = None -> ~ In k (map key c).
Proof.
  unfold Cachetools.find_link.
  intros H Hin. apply in_map_iff in Hin. destruct Hin as (l & Hk & Hl).
  apply (find_none _ _ H) in Hl. rewrite Hk, String.eqb_refl in Hl. discriminate.
Qed.

Lemma relinked_NoDup (k : string) (l : Link) (c : list Link) :
  key l = k -> NoDup (map key c) ->
  NoDup (map key (Cachetools.unlink k c ++ [l])).
Proof.
  intros Hk Hnd. rewrite map_app. cbn [map].
  apply Permutation_NoDup with (l := key l :: map key (Cachetools.unlink k c)).
  - apply Permutation_cons_append.
  - constructor.
    + rewrite Hk. apply unlink_not_in.
    + now apply keys_filter_NoDup.
Qed.

End Links.

Section Held.
Variable l : Link.

Lemma held_incl (seen seen' : list string) (c : list Link) :
  incl seen seen' -> held l seen c -> held l seen' c.
Proof.
  intros Hincl (older & newer & Hc & Hold & Hnd & Hnew).
  exists older, newer. repeat split; try assumption.
  intros x Hx. auto.
Qed.

Lemma held_find (seen : list string) (c : list Link) :
  held l seen c -> Cachetools.find_link (key l) c = Some l.
Proof.
  intros (older & newer & -> & Hold & _).
  unfold Cachetools.find_link.
  induction older as [| a older IH]; cbn.
  - now rewrite String.eqb_refl.
  - destruct (String.eqb (key a) (key l)) eqn:He.
    + apply String.eqb_eq in He. exfalso. apply Hold. now left.
    + apply IH. intros Hin. apply Hold. now right.
Qed.

(** Whatever the cache held, an insertion leaves its entry held, with
    nothing more recent. *)
Lemma held_fresh (k : string) (v : Document) (time : Q) (c : list Link) :
  l = {| key := k; val := v; expires := time + ttl |} ->
  held l [] (Cachetools.inserted maxsize ttl time k v c).
Proof.
  intros ->. unfold Cachetools.inserted.
  eexists. exists []. split; [ reflexivity | ].
  split; [ apply unlink_not_in | ]. split; [ constructor | ]. intros x [].
Qed.

(** Reading the held entry makes it the most recent one. *)
Lemma held_relink_self (seen : list string) (c : list Link) :
  held l seen (Cachetools.unlink (key l) c ++ [l]).
Proof.
  exists (Cachetools.unlink (key l) c), [].
  split; [ reflexivity | ]. split; [ apply unlink_not_in | ].
  split; [ constructor | ]. intros x [].
Qed.

Lemma unlink_split (k : string) (older newer : list Link) :
  key l <> k ->
  Cachetools.unlink k (older ++ l :: newer)
  = Cachetools.unlink k older ++ l :: Cachetools.unlink k newer.
Proof.
  intros Hk. unfold Cachetools.unlink. rewrite filter_app. cbn [List.filter].
  apply String.eqb_neq in Hk. now rewrite Hk.
Qed.

(** Reading or writing another key moves that key behind the held entry. *)
Lemma held_relink_other (k : string) (l' : Link) (seen : list string) (c : list Link) :
  key l <> k -> key l' = k ->
  held l seen c -> held l (k :: seen) (Cachetools.unlink k c ++ [l']).
Proof.
  intros Hk Hk' (older & newer & Hc & Hold & Hnd & Hnew).
  exists (Cachetools.unlink k older), (Cachetools.unlink k newer ++ [l']).
  split; [ rewrite Hc, (unlink_split k older newer Hk); now rewrite <- app_assoc | ].
  split.
  { intros Hin. apply Hold.
    exact (keys_filter_incl (fun l0 => negb (String.eqb (key l0) k)) older _ Hin). }
  split; [ now apply relinked_NoDup | ].
  rewrite map_app. cbn [map]. intros x Hx. apply in_app_or in Hx.
  destruct Hx as [Hx | [<- | []]].
  - right. apply Hnew.
    exact (keys_filter_incl (fun l0 => negb (String.eqb (key l0) k)) newer x Hx).
  - left. now symmetry.
Qed.

(** An entry that has not expired survives the expiry sweep. *)
Lemma held_expire (time : Q) (seen : list string) (c : list Link) :
  (time < expires l)%Q -> held l seen c -> held l seen (Cachetools.expire time c).
Proof.
  intros Hlive (older & newer & Hc & Hold & Hnd & Hnew).
  exists (Cachetools.expire time older), (Cachetools.expire time newer).
  split.
  { rewrite Hc. unfold Cachetools.expire. rewrite filter_app. cbn [List.filter].
    apply Qltb_lt in Hlive. now rewrite Hlive. }
  split.
  { intros Hin. apply Hold.
    exact (keys_filter_incl (fun l0 => Qltb time (expires l0)) older _ Hin). }
  split; [ now apply keys_filter_NoDup | ].
  intros x Hx. apply Hnew.
  exact (keys_filter_incl (fun l0 => Qltb time (expires l0)) newer x Hx).
Qed.

(** Making room for a new key drops the held entry only when [maxsize - 1]
    other keys have been used after it. *)
Lemma held_make_room (k : string) (seen : list string) (c : list Link) :
  ~ In k (map key c) ->
  (forall ks, NoDup ks -> incl ks (k :: seen) -> (List.length ks < maxsize)%nat) ->
  held l seen c ->
  held l seen (Cachetools.make_room maxsize c).
Proof.
  intros Hk Hbound (older & newer & Hc & Hold & Hnd & Hnew). subst c.
  induction older as [| a older IH].
  - cbn [app Cachetools.make_room].
    destruct (maxsize <? List.length (l :: newer) + 1)%nat eqn:Hfull.
    + exfalso. apply Nat.ltb_lt in Hfull. cbn [List.length] in Hfull.
      specialize (Hbound (k :: map key newer)).
      cbn [List.length] in Hbound. rewrite length_map in Hbound.
      assert ((S (List.length newer) < maxsize)%nat); [ | lia ].
      apply Hbound.
      * constructor; [ | assumption ].
        intros Hin. apply Hk. cbn [app map]. now right.
      * intros x [<- | Hx]; [ now left | right; now apply Hnew ].
    + exists [], newer. now repeat split.
  - cbn [app Cachetools.make_room].
    destruct (maxsize <? List.length (a :: older ++ l :: newer) + 1)%nat.
    + apply IH.
      * intros Hin. apply Hk. cbn [app map]. now right.
      * intros Hin. apply Hold. now right.
    + exists (a :: older), newer. now repeat split.
Qed.

(** An insertion under another key keeps the held entry, as long as it has
    not expired and fewer than [maxsize] other keys have come after it. *)
Lemma held_inserted (time : Q) (k : string) (v : Document) (seen : list string)
    (c : list Link) :
  key l <> k ->
  (time < expires l)%Q ->
  (forall ks, NoDup ks -> incl ks (k :: seen) -> (List.length ks < maxsize)%nat) ->
  held l seen c ->
  held l (k :: seen) (Cachetools.inserted maxsize ttl time k v c).
Proof.
  intros Hk Hlive Hbound Hheld. unfold Cachetools.inserted.
  apply (held_expire time) in Hheld; [ | exact Hlive ].
  destruct (Cachetools.find_link k (Cachetools.expire time c)) eqn:Hfind.
  - now apply held_relink_other.
  - apply held_relink_other; try easy.
    apply (held_make_room k); try assumption.
    now apply find_link_none.
Qed.

End Held.

Section KeepsHeld.
Variable w : World.
Variable l : Link.

(** The miss path leaves the cache as it was (nothing was obtained) or with
    the obtained document inserted at the next reading. *)
Lemma miss_path_state (a b : string) (s1 : State) :
  (_cache (snd (miss_path w a b s1)) = _cache s1
   /\ timer_reads (snd (miss_path w a b s1)) = timer_reads s1)
  \/ (exists data,
        _cache (snd (miss_path w a b s1))
        = Cachetools.inserted maxsize ttl (monotonic w (timer_reads s1))
            (cache_key_of a b) data (_cache s1)
        /\ timer_reads (snd (miss_path w a b s1)) = S (timer_reads s1)).
Proof.
  unfold miss_path.
  destruct (fetch_from_api_frame w (request_url a b) request_params s1)
    as (Hc & Ht & _).
  destruct (_fetch_from_api w _ _ s1) as [[data | e] s2]; cbn [snd] in Hc, Ht.
  - right. exists data. rewrite setitem_run. cbn [snd _cache timer_reads].
    now rewrite Hc, Ht.
  - destruct (sample_fx w (fallback_loads s2)) as [data | e'].
    + right. exists data. rewrite setitem_run.
      cbn [snd _cache timer_reads read_sample_fx]. now rewrite Hc, Ht.
    + left. cbn [snd _cache timer_reads read_sample_fx]. now split.
Qed.

(** A call reads the clock at most twice. *)
Lemma fetch_rates_timer (a b : string) (s : State) :
  (timer_reads s <= timer_reads (snd (fetch_rates w a b s)) <= timer_reads s + 2)%nat.
Proof.
  rewrite fetch_rates_unfold.
  pose proof (lookup_step_cases w a b s) as Hl.
  destruct (entry a b s) as [l0 |] eqn:Hentry; rewrite Hl.
  - destruct (Qltb (monotonic w (timer_reads s)) (expires l0)) eqn:Hlive.
    + match goal with
      | |- context [Cachetools.getitem w _ ?s1] =>
          destruct (Qltb (monotonic w (timer_reads s1)) (expires l0)) eqn:Hlive2;
          [ apply Qltb_lt in Hlive2;
            rewrite (getitem_live w (cache_key_of a b) l0 s1 Hentry Hlive2)
          | rewrite (getitem_expired w (cache_key_of a b) l0 s1 Hentry Hlive2) ]
      end; cbn [snd timer_reads]; lia.
    + match goal with
      | |- context [miss_path w a b ?s1] =>
          destruct (miss_path_state a b s1) as [[_ Ht] | (data & _ & Ht)]
      end; rewrite Ht; cbn [timer_reads]; lia.
  - destruct (miss_path_state a b s) as [[_ Ht] | (data & _ & Ht)]; rewrite Ht; lia.
Qed.

Lemma fetch_all_timer (ranges : list (string * string)) (s : State) :
  (timer_reads s <= timer_reads (fetch_all w ranges s))%nat.
Proof.
  revert s. induction ranges as [| [a b] rest IH]; intros s; cbn [fetch_all].
  - lia.
  - specialize (IH (snd (fetch_rates w a b s))).
    pose proof (fetch_rates_timer a b s). lia.
Qed.

(** One call for any range keeps the held entry. *)
Lemma fetch_rates_keeps (a b : string) (s : State) (seen : list string) :
  held l seen (_cache s) ->
  (monotonic w (timer_reads s) < expires l)%Q ->
  (monotonic w (S (timer_reads s)) < expires l)%Q ->
  (forall ks, NoDup ks -> incl ks (others (key l) [(a, b)] ++ seen) ->
              (List.length ks < maxsize)%nat) ->
  held l (others (key l) [(a, b)] ++ seen) (_cache (snd (fetch_rates w a b s))).
Proof.
  intros Hheld Hlive1 Hlive2 Hbound.
  unfold others in *. cbn [map List.filter fst snd] in *.
  destruct (String.eqb (cache_key_of a b) (key l)) eqn:Hsame; cbn [negb app] in *.
  - apply String.eqb_eq in Hsame.
    assert (Hentry : entry a b s = Some l)
      by (unfold entry; rewrite Hsame; eapply held_find; exact Hheld).
    rewrite (fetch_rates_hit w a b s l Hentry Hlive1 Hlive2).
    cbn [snd _cache]. rewrite Hsame. apply held_relink_self.
  - apply String.eqb_neq in Hsame.
    assert (Hk : key l <> cache_key_of a b) by congruence.
    assert (Hmiss : forall s1,
              _cache s1 = _cache s ->
              (timer_reads s1 = timer_reads s \/ timer_reads s1 = S (timer_reads s)) ->
              held l (cache_key_of a b :: seen) (_cache (snd (miss_path w a b s1)))).
    { intros s1 Hc Ht.
      destruct (miss_path_state a b s1) as [[Hc' _] | (data & Hc' & _)]; rewrite Hc', Hc.
      - eapply held_incl; [ | exact Hheld ]. intros x Hx. now right.
      - apply held_inserted; try assumption.
        destruct Ht as [-> | ->]; assumption. }
    rewrite fetch_rates_unfold.
    pose proof (lookup_step_cases w a b s) as Hl.
    destruct (entry a b s) as [l0 |] eqn:Hentry; rewrite Hl.
    + destruct (Qltb (monotonic w (timer_reads s)) (expires l0)) eqn:Hlive.
      * assert (Hrelinked :
          held l (cache_key_of a b :: seen)
               (Cachetools.unlink (cache_key_of a b) (_cache s) ++ [l0])).
        { apply held_relink_other; try assumption.
          eapply find_link_key; exact Hentry. }
        match goal with
        | |- context [Cachetools.getitem w _ ?s1] =>
            destruct (Qltb (monotonic w (timer_reads s1)) (expires l0)) eqn:Hlive0;
            [ apply Qltb_lt in Hlive0;
              rewrite (getitem_live w (cache_key_of a b) l0 s1 Hentry Hlive0)
            | rewrite (getitem_expired w (cache_key_of a b) l0 s1 Hentry Hlive0) ]
        end; exact Hrelinked.
      * apply Hmiss; [ reflexivity | right; reflexivity ].
    + apply Hmiss; [ reflexivity | left; reflexivity ].
Qed.

Lemma others_cons (k : string) (r : string * string) (rest : list (string * string)) :
  others k (r :: rest) = others k [r] ++ others k rest.
Proof.
  unfold others. cbn [map List.filter].
  destruct (negb (String.eqb (cache_key_of (fst r) (snd r)) k)); reflexivity.
Qed.

(** Any run of calls keeps the held entry, while its expiry is ahead and
    fewer than [maxsize] other keys are asked for. *)
Lemma fetch_all_keeps (ranges : list (string * string)) :
  forall (s : State) (seen : list string),
    held l seen (_cache s) ->
    (forall ks, NoDup ks -> incl ks (others (key l) ranges ++ seen) ->
                (List.length ks < maxsize)%nat) ->
    (forall i, (timer_reads s <= i <= S (timer_reads (fetch_all w ranges s)))%nat ->
               (monotonic w i < expires l)%Q) ->
    held l (others (key l) ranges ++ seen) (_cache (fetch_all w ranges s)).
Proof.
  induction ranges as [| [a b] rest IH]; intros s seen Hheld Hbound Hlive.
  - exact Hheld.
  - cbn [fetch_all] in *.
    pose proof (fetch_rates_timer a b s) as Hstep.
    pose proof (fetch_all_timer rest (snd (fetch_rates w a b s))) as Hrest.
    rewrite others_cons in Hbound |- *.
    eapply held_incl;
      [ | apply (IH (snd (fetch_rates w a b s)) (others (key l) [(a, b)] ++ seen)) ].
    + intros x Hx. rewrite <- app_assoc.
      apply in_app_or in Hx. destruct Hx as [Hx | Hx].
      * apply in_or_app. right. apply in_or_app. now left.
      * apply in_app_or in Hx. destruct Hx as [Hx | Hx];
          apply in_or_app; [ now left | right ]. apply in_or_app. now right.
    + apply fetch_rates_keeps; try assumption.
      * apply Hlive. lia.
      * apply Hlive. lia.
      * intros ks Hnd Hincl. apply Hbound; [ assumption | ].
        intros x Hx. apply Hincl in Hx. rewrite <- app_assoc.
        apply in_app_or in Hx. destruct Hx as [Hx | Hx]; apply in_or_app.
        -- now left.
        -- right. apply in_or_app. now right.
    + intros ks Hnd Hincl. apply Hbound; [ assumption | ].
      intros x Hx. apply Hincl in Hx. rewrite <- app_assoc.
      apply in_app_or in Hx. destruct Hx as [Hx | Hx].
      * apply in_or_app. right. apply in_or_app. now left.
      * apply in_app_or in Hx. destruct Hx as [Hx | Hx];
          apply in_or_app; [ now left | right ]. apply in_or_app. now right.
    + intros i Hi. apply Hlive. lia.
Qed.

End KeepsHeld.

Section StoredAlike.
Variable w : World.
Variables start_date end_date : string.

Lemma lookup_step_timer (w' : World) (s : State) :
  timer_reads (snd (lookup_step w' start_date end_date s))
  = timer_reads (snd (lookup_step w start_date end_date s)).
Proof.
  pose proof (lookup_step_cases w start_date end_date s) as H.
  pose proof (lookup_step_cases w' start_date end_date s) as H'.
  destruct (entry start_date end_date s); now rewrite H, H'.
Qed.

(** Whichever source the document of a missing range came from, the cache
    after the call is the cache before it with that document inserted, at
    the first reading after the lookup. *)
Lemma miss_cache (s : State) (d : Document) :
  is_miss w start_date end_date s ->
  fst (fetch_rates w start_date end_date s) = Ok d ->
  _cache (snd (fetch_rates w start_date end_date s))
  = Cachetools.inserted maxsize ttl
      (monotonic w (timer_reads (snd (lookup_step w start_date end_date s))))
      (cache_key_of start_date end_date) d (_cache s)
  /\ (timer_reads (snd (lookup_step w start_date end_date s))
      < timer_reads (snd (fetch_rates w start_date end_date s)))%nat.
Proof.
  unfold is_miss. rewrite fetch_rates_unfold. intros Hmiss.
  pose proof (lookup_step_cache w start_date end_date s) as Hcache.
  destruct (lookup_step w start_date end_date s) as [r s1].
  cbn [fst snd] in *. subst r. unfold miss_path.
  destruct (fetch_from_api_frame w (request_url start_date end_date) request_params s1)
    as (Hc & Ht & _).
  destruct (_fetch_from_api w _ _ s1) as [[data | e] s2]; cbn [snd] in Hc, Ht.
  - cbn [fst]. intros Hd. injection Hd as ->. rewrite setitem_run.
    cbn [snd _cache timer_reads]. rewrite Hc, Ht, Hcache. split; [ reflexivity | lia ].
  - destruct (sample_fx w (fallback_loads s2)) as [data | e'];
      cbn [fst]; intros Hd; [ | discriminate Hd ].
    injection Hd as ->. rewrite setitem_run.
    cbn [snd _cache timer_reads read_sample_fx]. rewrite Hc, Ht, Hcache.
    split; [ reflexivity | lia ].
Qed.

End StoredAlike.

(** C4, as the code has it: a call that degraded to the fallback stores that
    document under the range's key by the very insertion a live document
    gets, expiring [ttl] after it; from then on every call for the same range
    made before that expiry returns the cached fallback document, sends no
    request and loads nothing, whatever calls came in between, provided
    fewer than [maxsize] (256) other ranges were asked for in between. *)
Theorem fallback_cached_like_live (w : World) (start_date end_date : string)
    (s : State) (e : Exn) (d : Document) (ranges : list (string * string))
    (Hmiss : is_miss w start_date end_date s)
    (Hnet : fst (network_step w start_date end_date s) = Raise e)
    (Hfallback :
       sample_fx w (fallback_loads (snd (network_step w start_date end_date s))) = Ok d)
    (Hroom :
       (List.length (other_keys (cache_key_of start_date end_date) ranges) < maxsize)%nat)
    (Hwindow :
       forall l i,
         entry start_date end_date (snd (fetch_rates w start_date end_date s)) = Some l ->
         (timer_reads (snd (fetch_rates w start_date end_date s)) <= i
          <= S (timer_reads (fetch_all w ranges
                               (snd (fetch_rates w start_date end_date s)))))%nat ->
         (monotonic w i < expires l)%Q) :
  fst (fetch_rates w start_date end_date s) = Ok d
  /\ entry start_date end_date (snd (fetch_rates w start_date end_date s))
     = Some {| key := cache_key_of start_date end_date; val := d;
               expires :=
                 monotonic w (timer_reads (snd (lookup_step w start_date end_date s)))
                 + ttl |}
  /\ (forall w',
        (forall i, monotonic w' i = monotonic w i) ->
        is_miss w' start_date end_date s ->
        fst (network_step w' start_date end_date s) = Ok d ->
        _cache (snd (fetch_rates w' start_date end_date s))
        = _cache (snd (fetch_rates w start_date end_date s)))
  /\ fst (fetch_rates w start_date end_date
            (fetch_all w ranges (snd (fetch_rates w start_date end_date s)))) = Ok d
  /\ requests (snd (fetch_rates w start_date end_date
                      (fetch_all w ranges (snd (fetch_rates w start_date end_date s)))))
     = requests (fetch_all w ranges (snd (fetch_rates w start_date end_date s)))
  /\ fallback_loads
       (snd (fetch_rates w start_date end_date
               (fetch_all w ranges (snd (fetch_rates w start_date end_date s)))))
     = fallback_loads (fetch_all w ranges (snd (fetch_rates w start_date end_date s))).
Proof.
  assert (Hfirst : fst (fetch_rates w start_date end_date s) = Ok d).
  { rewrite (fetch_rates_degraded w start_date end_date s e Hmiss Hnet).
    now rewrite Hfallback. }
  destruct (miss_cache w start_date end_date s d Hmiss Hfirst) as [Hcache Htimer].
  set (l := {| key := cache_key_of start_date end_date; val := d;
               expires :=
                 monotonic w (timer_reads (snd (lookup_step w start_date end_date s)))
                 + ttl |}) in *.
  set (s1 := snd (fetch_rates w start_date end_date s)) in *.
  assert (Hheld1 : held l [] (_cache s1))
    by (rewrite Hcache; now apply held_fresh).
  assert (Hentry1 : entry start_date end_date s1 = Some l)
    by (unfold entry; exact (held_find l [] _ Hheld1)).
  split; [ exact Hfirst | ]. split; [ exact Hentry1 | ].
  split.
  { intros w' Hclock Hmiss' Hlive.
    assert (Hfirst' : fst (fetch_rates w' start_date end_date s) = Ok d).
    { revert Hmiss' Hlive. unfold is_miss, network_step.
      rewrite fetch_rates_unfold. unfold miss_path.
      destruct (lookup_step w' start_date end_date s) as [r s1'].
      cbn [fst snd]. intros ->.
      destruct (_fetch_from_api w' _ _ s1') as [r2 s2']. cbn [fst]. now intros ->. }
    destruct (miss_cache w' start_date end_date s d Hmiss' Hfirst') as [-> _].
    rewrite Hcache, Hclock. now rewrite (lookup_step_timer w start_date end_date w' s). }
  set (s2 := fetch_all w ranges s1) in *.
  assert (Hheld2 : held l (others (key l) ranges ++ []) (_cache s2)).
  { apply fetch_all_keeps; [ exact Hheld1 | | ].
    - intros ks Hnd Hincl. rewrite app_nil_r in Hincl.
      eapply Nat.le_lt_trans; [ | exact Hroom ].
      apply NoDup_incl_length; [ exact Hnd | ].
      intros x Hx. unfold other_keys. apply nodup_In. now apply Hincl.
    - intros i Hi. now apply (Hwindow l i Hentry1). }
  assert (Hentry2 : entry start_date end_date s2 = Some l)
    by (unfold entry; exact (held_find l _ _ Hheld2)).
  pose proof (fetch_all_timer w ranges s1) as Hmono. fold s2 in Hmono.
  rewrite (fetch_rates_hit w start_date end_date s2 l Hentry2).
  - cbn [fst snd requests fallback_loads]. now repeat split.
  - apply (Hwindow l _ Hentry1). lia.
  - apply (Hwindow l _ Hentry1). lia.
Qed.


Lemma fallback_cached_like_live_witness :
  List.length (other_keys (cache_key_of Examples.jan_1 Examples.jan_3)
                 (firstn 255 Examples.other_ranges)) = 255%nat
  /\ fst (fetch_rates Examples.w_down Examples.jan_1 Examples.jan_3
            (fetch_all Examples.w_down (firstn 255 Examples.other_ranges)
               (snd (fetch_rates Examples.w_down Examples.jan_1 Examples.jan_3
                       Examples.s0))))
     = Ok Examples.doc_sample.
Proof.
  assert (Hmiss : is_miss Examples.w_down Examples.jan_1 Examples.jan_3 Examples.s0)
    by reflexivity.
  assert (Hnet : fst (network_step Examples.w_down Examples.jan_1 Examples.jan_3
                        Examples.s0) = Raise ConnectError)
    by (vm_compute; reflexivity).
  assert (Hfallback :
    sample_fx Examples.w_down
      (fallback_loads (snd (network_step Examples.w_down Examples.jan_1
                              Examples.jan_3 Examples.s0)))
    = Ok Examples.doc_sample)
    by reflexivity.
  assert (Hcount : List.length (other_keys (cache_key_of Examples.jan_1 Examples.jan_3)
                                  (firstn 255 Examples.other_ranges)) = 255%nat)
    by (vm_compute; reflexivity).
  assert (Hroom : (List.length (other_keys (cache_key_of Examples.jan_1 Examples.jan_3)
                                  (firstn 255 Examples.other_ranges)) < maxsize)%nat)
    by (rewrite Hcount; unfold maxsize; lia).
  split; [ exact Hcount | ].
  refine (proj1 (proj2 (proj2 (proj2
    (fallback_cached_like_live Examples.w_down Examples.jan_1 Examples.jan_3
       Examples.s0 ConnectError Examples.doc_sample
       (firstn 255 Examples.other_ranges) Hmiss Hnet Hfallback Hroom _))))).
  intros l i Hl _. vm_compute in Hl. injection Hl as <-. reflexivity.
Defined.

(** C4 as stated fails: with the clock standing still inside the window,
    256 calls for other ranges push the fallback entry out, and the next
    call for the range goes to the network (3 attempts) and to the file
    again. *)
Lemma fallback_entry_evicted :
  fst (fetch_rates Examples.w_down Examples.jan_1 Examples.jan_3 Examples.s0)
  = Ok Examples.doc_sample
  /\ fallback_loads Examples.s_degraded = 1%nat
  /\ entry Examples.jan_1 Examples.jan_3 Examples.s_degraded
     = Some {| key := cache_key_of Examples.jan_1 Examples.jan_3;
               val := Examples.doc_sample; expires := 900 |}
  /\ monotonic Examples.w_down = (fun _ => 0)
  /\ List.length Examples.other_ranges = 256%nat
  /\ entry Examples.jan_1 Examples.jan_3 Examples.s_crowded = None
  /\ List.length (requests (snd (fetch_rates Examples.w_down Examples.jan_1
                                   Examples.jan_3 Examples.s_crowded)))
     = (List.length (requests Examples.s_crowded) + 3)%nat
  /\ fallback_loads (snd (fetch_rates Examples.w_down Examples.jan_1 Examples.jan_3
                            Examples.s_crowded))
     = S (fallback_loads Examples.s_crowded).
Proof. split_all; vm_compute; reflexivity. Qed.


Import Invariants Views.

(* ------------------------------------------------------------------ *)
(** * Further properties: the network fetcher                          *)
(* ------------------------------------------------------------------ *)

Section Backoff.
Variable w : World.
Variable url : string.
Variable params : dict string.

(** The waits of the retry loop: one after each attempt that is followed
    by another, computed from that attempt's number. *)
Lemma attempt_sleeps (wait : nat -> Q) (left : nat) :
  forall (attempt_number : nat) (s : State),
    exists n,
      (1 <= n <= S left)%nat
      /\ requests (snd (Tenacity.attempt retry_if_exception_type wait
                          (_fetch_from_api_body w url params) left attempt_number s))
         = repeat (Build_Request url params) n ++ requests s
      /\ sleeps (snd (Tenacity.attempt retry_if_exception_type wait
                        (_fetch_from_api_body w url params) left attempt_number s))
         = rev (map wait (seq attempt_number (n - 1))) ++ sleeps s.
Proof.
  induction left as [| left IH]; intros attempt_number s.
  - exists 1%nat. cbn [Tenacity.attempt]. rewrite fetch_body_outcome.
    destruct (nth_outcome w _ s 0) as [d | e];
      [ | destruct (retry_if_exception_type e) ];
      cbn; (split; [ lia | split; reflexivity ]).
  - cbn [Tenacity.attempt]. rewrite fetch_body_outcome.
    destruct (nth_outcome w _ s 0) as [d | e].
    + exists 1%nat. cbn. split; [ lia | split; reflexivity ].
    + destruct (retry_if_exception_type e).
      * rewrite bindM_sleep.
        match goal with
        | |- context [Tenacity.attempt _ _ _ left ?k ?s1] =>
            destruct (IH k s1) as (n & Hn & Hreq & Hsl)
        end.
        exists (S n). split; [ lia | ].
        rewrite Hreq, Hsl. cbn [requests sleeps]. split.
        -- change (Build_Request url params :: requests s)
             with ([Build_Request url params] ++ requests s).
           now rewrite app_assoc, <- repeat_cons.
        -- replace (S n - 1)%nat with (S (n - 1)) by lia.
           cbn [seq map rev]. rewrite <- app_assoc. reflexivity.
      * exists 1%nat. cbn. split; [ lia | split; reflexivity ].
Qed.

End Backoff.

Lemma wait_exponential_bounds (attempt_number : nat) :
  (1 # 2 <= Tenacity.wait_exponential (1 # 2) (1 # 2) 4 attempt_number)%Q
  /\ (Tenacity.wait_exponential (1 # 2) (1 # 2) 4 attempt_number <= 4)%Q.
Proof.
  unfold Tenacity.wait_exponential. split.
  - eapply Qle_trans; [ | apply Q.le_max_l ]. apply Q.le_max_r.
  - apply Q.max_lub.
    + apply Q.max_lub; discriminate.
    + apply Q.le_min_r.
Qed.

(** X1: a call of the fetcher that made [n] attempts waited [n - 1] times,
    once after each attempt that was followed by another and never after
    the last: 0.5 s after the first attempt and 1 s after the second.
    Whatever the attempt number, a wait is between 0.5 s and 4 s. *)
Theorem fetch_from_api_backoff (w : World) (url : string) (params : dict string)
    (s : State) :
  exists n,
    (1 <= n <= 3)%nat
    /\ requests (snd (_fetch_from_api w url params s))
       = repeat (Build_Request url params) n ++ requests s
    /\ sleeps (snd (_fetch_from_api w url params s)) = backoff n ++ sleeps s
    /\ List.length (backoff n) = (n - 1)%nat
    /\ Forall2 Qeq (backoff 3) [1; 1 # 2]
    /\ (forall k, (1 # 2 <= Tenacity.wait_exponential (1 # 2) (1 # 2) 4 k)%Q
                  /\ (Tenacity.wait_exponential (1 # 2) (1 # 2) 4 k <= 4)%Q).
Proof.
  destruct (attempt_sleeps w url params (Tenacity.wait_exponential (1 # 2) (1 # 2) 4)
              2 1 s) as (n & Hn & Hreq & Hsl).
  exists n. split; [ lia | ]. split; [ exact Hreq | ]. split; [ exact Hsl | ].
  split; [ unfold backoff; now rewrite length_rev, length_map, length_seq | ].
  split; [ | exact wait_exponential_bounds ].
  repeat constructor.
Qed.


(** X2: if one of the first three GETs is answered with a document and
    every GET before it failed with an [httpx.HTTPError], the fetcher returns
    that document, having sent exactly the GETs up to it: retried failures
    do not reach the caller. *)
Theorem fetch_from_api_recovers (w : World) (url : string) (params : dict string)
    (s : State) (i : nat) (d : Document)
    (Hi : (i < 3)%nat)
    (Hok : nth_outcome w (Build_Request url params) s i = Ok d)
    (Hbefore : forall j, (j < i)%nat ->
                 exists e, nth_outcome w (Build_Request url params) s j = Raise e
                           /\ isinstance e httpx_HTTPError = true) :
  fst (_fetch_from_api w url params s) = Ok d
  /\ requests (snd (_fetch_from_api w url params s))
     = repeat (Build_Request url params) (S i) ++ requests s.
Proof.
  destruct (attempt_spec w url params (Tenacity.wait_exponential (1 # 2) (1 # 2) 4) 2 1 s)
    as (n & Hn & Hreq & Hres & Hprev & Hlast & _).
  change (Tenacity.attempt retry_if_exception_type
            (Tenacity.wait_exponential (1 # 2) (1 # 2) 4)
            (_fetch_from_api_body w url params) 2 1 s)
    with (_fetch_from_api w url params s) in Hreq, Hres, Hlast.
  assert (Heq : n = S i).
  { destruct (Nat.lt_trichotomy (n - 1) i) as [Hlt | [Heq | Hgt]].
    - destruct (Hbefore (n - 1)%nat Hlt) as (e & He & Hinst).
      rewrite He in Hres. specialize (Hlast e Hres Hinst). lia.
    - lia.
    - destruct (Hprev i ltac:(lia)) as (e & He & _). congruence. }
  subst n. split; [ | exact Hreq ].
  rewrite Hres. replace (S i - 1)%nat with i by lia. exact Hok.
Qed.

Lemma fetch_from_api_recovers_witness :
  fst (_fetch_from_api Examples.w_flaky
         (request_url Examples.jan_1 Examples.jan_3) request_params Examples.s0)
  = Ok Examples.doc_live
  /\ requests (snd (_fetch_from_api Examples.w_flaky
                      (request_url Examples.jan_1 Examples.jan_3) request_params
                      Examples.s0))
     = repeat (Build_Request (request_url Examples.jan_1 Examples.jan_3)
                 request_params) 2 ++ requests Examples.s0.
Proof.
  apply (fetch_from_api_recovers Examples.w_flaky
           (request_url Examples.jan_1 Examples.jan_3) request_params Examples.s0
           1 Examples.doc_live).
  - lia.
  - reflexivity.
  - intros j Hj. assert (j = 0%nat) as -> by lia.
    exists ReadTimeout. split; reflexivity.
Defined.


(* ------------------------------------------------------------------ *)
(** * Further properties: one call of the pipeline                     *)
(* ------------------------------------------------------------------ *)

Lemma Qltb_ge (a b : Q) : Qltb a b = false <-> (b <= a)%Q.
Proof.
  unfold Qltb. rewrite negb_false_iff. apply Qle_bool_iff.
Qed.

Section Calls.
Variable w : World.
Variables start_date end_date : string.

Local Abbreviation cache_key := (cache_key_of start_date end_date).

(** What the miss path sends, reads and raises. *)
Lemma miss_path_trace (s1 : State) :
  exists n,
    (1 <= n <= 3)%nat
    /\ requests (snd (miss_path w start_date end_date s1))
       = repeat (request_of start_date end_date) n ++ requests s1
    /\ (fallback_loads (snd (miss_path w start_date end_date s1)) = fallback_loads s1
        /\ (exists d, fst (miss_path w start_date end_date s1) = Ok d)
        \/ fallback_loads (snd (miss_path w start_date end_date s1))
           = S (fallback_loads s1)
           /\ fst (miss_path w start_date end_date s1) = sample_fx w (fallback_loads s1)).
Proof.
  unfold miss_path.
  destruct (attempt_spec w (request_url start_date end_date) request_params
              (Tenacity.wait_exponential (1 # 2) (1 # 2) 4) 2 1 s1)
    as (n & Hn & Hreq & _ & _ & _ & _ & _ & Hf).
  change (Tenacity.attempt retry_if_exception_type
            (Tenacity.wait_exponential (1 # 2) (1 # 2) 4)
            (_fetch_from_api_body w (request_url start_date end_date) request_params)
            2 1 s1)
    with (_fetch_from_api w (request_url start_date end_date) request_params s1)
    in Hreq, Hf.
  exists n. split; [ lia | ].
  destruct (_fetch_from_api w _ _ s1) as [[data | e] s2]; cbn [snd] in Hreq, Hf.
  - rewrite setitem_run. cbn [fst snd requests fallback_loads].
    split; [ exact Hreq | ]. left. split; [ exact Hf | eauto ].
  - rewrite <- Hf.
    destruct (sample_fx w (fallback_loads s2)) as [data | e'].
    + rewrite setitem_run. cbn [fst snd requests fallback_loads read_sample_fx].
      split; [ exact Hreq | ]. right. now split.
    + cbn [fst snd requests fallback_loads read_sample_fx].
      split; [ exact Hreq | ]. right. now split.
Qed.

End Calls.

(** X3: one call of [fetch_rates] sends at most 3 GETs, all of them the
    request of its range (the provider URL of the range, [base=EUR],
    [symbols=USD]), and reads the bundled file at most once, and then only
    after at least one GET. *)
Theorem fetch_rates_requests (w : World) (start_date end_date : string) (s : State) :
  exists n,
    (n <= 3)%nat
    /\ requests (snd (fetch_rates w start_date end_date s))
       = repeat (request_of start_date end_date) n ++ requests s
    /\ (fallback_loads (snd (fetch_rates w start_date end_date s)) = fallback_loads s
        \/ (1 <= n)%nat
           /\ fallback_loads (snd (fetch_rates w start_date end_date s))
              = S (fallback_loads s)).
Proof.
  rewrite fetch_rates_unfold.
  pose proof (lookup_step_cases w start_date end_date s) as Hl.
  assert (Hmiss : forall s1,
            requests s1 = requests s -> fallback_loads s1 = fallback_loads s ->
            exists n,
              (n <= 3)%nat
              /\ requests (snd (miss_path w start_date end_date s1))
                 = repeat (request_of start_date end_date) n ++ requests s
              /\ (fallback_loads (snd (miss_path w start_date end_date s1))
                  = fallback_loads s
                  \/ (1 <= n)%nat
                     /\ fallback_loads (snd (miss_path w start_date end_date s1))
                        = S (fallback_loads s))).
  { intros s1 Hr Hf.
    destruct (miss_path_trace w start_date end_date s1) as (n & Hn & Hreq & Hloads).
    exists n. rewrite Hreq, Hr. split; [ lia | ]. split; [ reflexivity | ].
    rewrite <- Hf. destruct Hloads as [[H _] | [H _]]; [ now left | right ].
    split; [ lia | exact H ]. }
  destruct (entry start_date end_date s) as [l |] eqn:Hentry; rewrite Hl.
  - destruct (Qltb (monotonic w (timer_reads s)) (expires l)) eqn:Hlive.
    + exists 0%nat. split; [ lia | ].
      match goal with
      | |- context [Cachetools.getitem w _ ?s1] =>
          destruct (Qltb (monotonic w (timer_reads s1)) (expires l)) eqn:Hlive2;
          [ apply Qltb_lt in Hlive2;
            rewrite (getitem_live w (cache_key_of start_date end_date) l s1 Hentry Hlive2)
          | rewrite (getitem_expired w (cache_key_of start_date end_date) l s1
                       Hentry Hlive2) ]
      end; cbn [snd requests fallback_loads repeat app]; split; auto.
    + apply Hmiss; reflexivity.
  - apply Hmiss; reflexivity.
Qed.

(** X4: on a miss whose network fetch returns a document, [fetch_rates]
    returns that document without reading the bundled file, sends nothing
    beyond the fetcher's GETs, and leaves the document in the cache under
    the range's key, expiring [ttl] after the insertion's clock reading. *)
Theorem fetch_rates_live (w : World) (start_date end_date : string) (s : State)
    (d : Document)
    (Hmiss : is_miss w start_date end_date s)
    (Hnet : fst (network_step w start_date end_date s) = Ok d) :
  fst (fetch_rates w start_date end_date s) = Ok d
  /\ fallback_loads (snd (fetch_rates w start_date end_date s)) = fallback_loads s
  /\ requests (snd (fetch_rates w start_date end_date s))
     = requests (snd (network_step w start_date end_date s))
  /\ entry start_date end_date (snd (fetch_rates w start_date end_date s))
     = Some {| key := cache_key_of start_date end_date; val := d;
               expires :=
                 monotonic w (timer_reads (snd (lookup_step w start_date end_date s)))
                 + ttl |}.
Proof.
  revert Hmiss Hnet. unfold is_miss, network_step.
  rewrite fetch_rates_unfold.
  pose proof (lookup_step_cases w start_date end_date s) as Hl.
  assert (Hloads : fallback_loads (snd (lookup_step w start_date end_date s))
                   = fallback_loads s)
    by (destruct (entry start_date end_date s); now rewrite Hl).
  clear Hl.
  destruct (lookup_step w start_date end_date s) as [r s1].
  cbn [fst snd] in *. intros -> Hnet.
  pose proof (miss_path_entry w start_date end_date s1 d) as Hentry.
  unfold miss_path in *.
  destruct (fetch_from_api_frame w (request_url start_date end_date) request_params s1)
    as (_ & _ & Hf).
  destruct (_fetch_from_api w _ _ s1) as [r2 s2]. cbn [fst snd] in *. subst r2.
  split; [ reflexivity | ].
  rewrite setitem_run in *. cbn [fst snd fallback_loads requests] in *.
  split; [ congruence | ]. split; [ reflexivity | ].
  now apply Hentry.
Qed.

Lemma fetch_rates_live_witness :
  is_miss Examples.w_flaky Examples.jan_1 Examples.jan_3 Examples.s0
  /\ fst (fetch_rates Examples.w_flaky Examples.jan_1 Examples.jan_3 Examples.s0)
     = Ok Examples.doc_live
  /\ fallback_loads (snd (fetch_rates Examples.w_flaky Examples.jan_1 Examples.jan_3
                            Examples.s0)) = 0%nat.
Proof.
  assert (Hmiss : is_miss Examples.w_flaky Examples.jan_1 Examples.jan_3 Examples.s0)
    by reflexivity.
  assert (Hnet : fst (network_step Examples.w_flaky Examples.jan_1 Examples.jan_3
                        Examples.s0) = Ok Examples.doc_live)
    by (vm_compute; reflexivity).
  split; [ exact Hmiss | ].
  destruct (fetch_rates_live Examples.w_flaky Examples.jan_1 Examples.jan_3 Examples.s0
              Examples.doc_live Hmiss Hnet) as (H1 & H2 & _).
  split; [ exact H1 | exact H2 ].
Defined.

(** X5: [fetch_rates] raises only two things: the [KeyError] of a cache
    entry that expired between the membership test and the read (then with
    no GET and no file read), or the error of the fallback load it
    performed (then with the cache as it was).  An exception of the network
    fetch is never what it raises. *)
Theorem fetch_rates_raises_only (w : World) (start_date end_date : string)
    (s : State) (e : Exn)
    (Hraise : fst (fetch_rates w start_date end_date s) = Raise e) :
  (e = KeyError (cache_key_of start_date end_date)
   /\ requests (snd (fetch_rates w start_date end_date s)) = requests s
   /\ fallback_loads (snd (fetch_rates w start_date end_date s)) = fallback_loads s)
  \/ (sample_fx w (fallback_loads s) = Raise e
      /\ fallback_loads (snd (fetch_rates w start_date end_date s))
         = S (fallback_loads s)
      /\ _cache (snd (fetch_rates w start_date end_date s)) = _cache s).
Proof.
  revert Hraise. rewrite fetch_rates_unfold.
  pose proof (lookup_step_cases w start_date end_date s) as Hl.
  assert (Hmiss : forall s1,
            _cache s1 = _cache s -> fallback_loads s1 = fallback_loads s ->
            fst (miss_path w start_date end_date s1) = Raise e ->
            sample_fx w (fallback_loads s) = Raise e
            /\ fallback_loads (snd (miss_path w start_date end_date s1))
               = S (fallback_loads s)
            /\ _cache (snd (miss_path w start_date end_date s1)) = _cache s).
  { intros s1 Hc Hf. unfold miss_path.
    destruct (fetch_from_api_frame w (request_url start_date end_date) request_params s1)
      as (Hc2 & _ & Hf2).
    destruct (_fetch_from_api w _ _ s1) as [[data | e0] s2]; cbn [fst snd] in *;
      [ discriminate | ].
    rewrite Hf2, Hf.
    destruct (sample_fx w (fallback_loads s)) as [data | e']; cbn [fst snd];
      [ discriminate | ].
    intros He. cbn [read_sample_fx snd fallback_loads _cache].
    split; [ exact He | ]. split; congruence. }
  destruct (entry start_date end_date s) as [l |] eqn:Hentry; rewrite Hl.
  - destruct (Qltb (monotonic w (timer_reads s)) (expires l)) eqn:Hlive.
    + match goal with
      | |- context [Cachetools.getitem w _ ?s1] =>
          destruct (Qltb (monotonic w (timer_reads s1)) (expires l)) eqn:Hlive2;
          [ apply Qltb_lt in Hlive2;
            rewrite (getitem_live w (cache_key_of start_date end_date) l s1 Hentry Hlive2)
          | rewrite (getitem_expired w (cache_key_of start_date end_date) l s1
                       Hentry Hlive2) ]
      end; cbn [fst snd requests fallback_loads]; intros He; [ discriminate He | ].
      left. injection He as <-. now repeat split.
    + intros He. right. now apply Hmiss.
  - intros He. right. now apply Hmiss.
Qed.

Lemma fetch_rates_raises_only_witness :
  fst (fetch_rates Examples.w_dead Examples.jan_1 Examples.jan_3 Examples.s0)
  = Raise OSError
  /\ sample_fx Examples.w_dead (fallback_loads Examples.s0) = Raise OSError.
Proof.
  assert (Hraise : fst (fetch_rates Examples.w_dead Examples.jan_1 Examples.jan_3
                          Examples.s0) = Raise OSError)
    by (vm_compute; reflexivity).
  split; [ exact Hraise | ].
  destruct (fetch_rates_raises_only Examples.w_dead Examples.jan_1 Examples.jan_3
              Examples.s0 OSError Hraise) as [(Hk & _) | (Hfb & _)].
  - discriminate Hk.
  - exact Hfb.
Defined.



(* ------------------------------------------------------------------ *)
(** * Further properties: expiry and the life of an entry              *)
(* ------------------------------------------------------------------ *)

(** X7: when the range has an entry that has expired at the membership
    test, [fetch_rates] does not serve it: it sends between 1 and 3 GETs,
    and if it returns a document that document replaces the entry, expiring
    [ttl] after the clock reading of the insertion. *)
Theorem expired_entry_refetched (w : World) (start_date end_date : string)
    (s : State) (l : Link)
    (Hentry : entry start_date end_date s = Some l)
    (Hexpired : (expires l <= monotonic w (timer_reads s))%Q) :
  exists n,
    (1 <= n <= 3)%nat
    /\ requests (snd (fetch_rates w start_date end_date s))
       = repeat (request_of start_date end_date) n ++ requests s
    /\ (forall d,
          fst (fetch_rates w start_date end_date s) = Ok d ->
          entry start_date end_date (snd (fetch_rates w start_date end_date s))
          = Some {| key := cache_key_of start_date end_date; val := d;
                    expires := monotonic w (S (timer_reads s)) + ttl |}).
Proof.
  rewrite fetch_rates_unfold.
  pose proof (lookup_step_cases w start_date end_date s) as Hl.
  rewrite Hentry in Hl. rewrite Hl.
  apply Qltb_ge in Hexpired. rewrite Hexpired.
  match goal with
  | |- context [miss_path w start_date end_date ?s1] =>
      destruct (miss_path_trace w start_date end_date s1) as (n & Hn & Hreq & _);
      pose proof (miss_path_entry w start_date end_date s1) as Hnew
  end.
  exists n. split; [ exact Hn | ]. split; [ exact Hreq | ].
  intros d Hd. exact (Hnew d Hd).
Qed.

Lemma expired_entry_refetched_witness :
  entry Examples.jan_1 Examples.jan_3 Scenarios.s_slow
  = Some {| key := cache_key_of Examples.jan_1 Examples.jan_3;
            val := Examples.doc_live; expires := 0 + 900 |}
  /\ exists n,
       (1 <= n <= 3)%nat
       /\ requests (snd (fetch_rates Scenarios.w_slow Examples.jan_1 Examples.jan_3
                           Scenarios.s_slow))
          = repeat (request_of Examples.jan_1 Examples.jan_3) n
              ++ requests Scenarios.s_slow.
Proof.
  assert (Hentry : entry Examples.jan_1 Examples.jan_3 Scenarios.s_slow
                   = Some {| key := cache_key_of Examples.jan_1 Examples.jan_3;
                             val := Examples.doc_live; expires := 0 + 900 |})
    by (vm_compute; reflexivity).
  split; [ exact Hentry | ].
  destruct (expired_entry_refetched Scenarios.w_slow Examples.jan_1 Examples.jan_3
              Scenarios.s_slow _ Hentry) as (n & Hn & Hreq & _).
  - vm_compute. discriminate.
  - exists n. split; assumption.
Defined.

(** X8: when the entry of the range is live at the membership test and has
    expired at the read that follows, [fetch_rates] raises [KeyError] with
    the cache key, without a GET and without reading the bundled file, and
    [get_summary] raises the same. *)
Theorem expiry_between_test_and_read (w : World) (start_date end_date : string)
    (s : State) (l : Link)
    (Hentry : entry start_date end_date s = Some l)
    (Htest : (monotonic w (timer_reads s) < expires l)%Q)
    (Hread : (expires l <= monotonic w (S (timer_reads s)))%Q) :
  fst (fetch_rates w start_date end_date s)
  = Raise (KeyError (cache_key_of start_date end_date))
  /\ requests (snd (fetch_rates w start_date end_date s)) = requests s
  /\ fallback_loads (snd (fetch_rates w start_date end_date s)) = fallback_loads s
  /\ (forall breakdown,
        fst (get_summary w start_date end_date breakdown s)
        = Raise (KeyError (cache_key_of start_date end_date))).
Proof.
  assert (Hrun :
    fetch_rates w start_date end_date s
    = (Raise (KeyError (cache_key_of start_date end_date)),
       {| _cache := Cachetools.unlink (cache_key_of start_date end_date) (_cache s) ++ [l];
          timer_reads := S (S (timer_reads s));
          requests := requests s; sleeps := sleeps s;
          fallback_loads := fallback_loads s |})).
  { rewrite fetch_rates_unfold.
    pose proof (lookup_step_cases w start_date end_date s) as Hl.
    rewrite Hentry in Hl. rewrite Hl.
    apply Qltb_lt in Htest. rewrite Htest.
    apply Qltb_ge in Hread.
    match goal with
    | |- Cachetools.getitem w _ ?s1 = _ =>
        now rewrite (getitem_expired w (cache_key_of start_date end_date) l s1
                       Hentry Hread)
    end. }
  rewrite Hrun. cbn [fst snd requests fallback_loads].
  repeat (split; [ reflexivity | ]).
  intros breakdown. rewrite get_summary_unfold, Hrun. reflexivity.
Qed.

Lemma expiry_between_test_and_read_witness :
  fst (get_summary Scenarios.w_race Examples.jan_1 Examples.jan_3 day Scenarios.s_race)
  = Raise (KeyError (cache_key_of Examples.jan_1 Examples.jan_3)).
Proof.
  assert (Hentry : entry Examples.jan_1 Examples.jan_3 Scenarios.s_race
                   = Some {| key := cache_key_of Examples.jan_1 Examples.jan_3;
                             val := Examples.doc_live; expires := 0 + 900 |})
    by (vm_compute; reflexivity).
  refine (proj2 (proj2 (proj2
    (expiry_between_test_and_read Scenarios.w_race Examples.jan_1 Examples.jan_3
       Scenarios.s_race _ Hentry _ _))) day).
  - vm_compute. reflexivity.
  - vm_compute. discriminate.
Defined.


(* ------------------------------------------------------------------ *)
(** * Further properties: what the cache keeps                         *)
(* ------------------------------------------------------------------ *)

Section CacheShape.

Lemma make_room_suffix (c : list Link) :
  exists dropped, c = dropped ++ Cachetools.make_room maxsize c.
Proof.
  induction c as [| a c IH]; [ now exists [] | ].
  cbn [Cachetools.make_room].
  destruct (maxsize <? List.length (a :: c) + 1)%nat.
  - destruct IH as [dropped Hd]. exists (a :: dropped). cbn. now f_equal.
  - now exists [].
Qed.

Lemma make_room_length (c : list Link) :
  (List.length (Cachetools.make_room maxsize c) < maxsize)%nat.
Proof.
  induction c as [| a c IH]; [ cbn; unfold maxsize; lia | ].
  cbn [Cachetools.make_room].
  destruct (maxsize <? List.length (a :: c) + 1)%nat eqn:Hfull; [ exact IH | ].
  apply Nat.ltb_ge in Hfull. lia.
Qed.

Lemma unlink_shorter (k : string) (l : Link) (c : list Link) :
  Cachetools.find_link k c = Some l ->
  (List.length (Cachetools.unlink k c) < List.length c)%nat.
Proof.
  unfold Cachetools.find_link, Cachetools.unlink.
  induction c as [| a c IH]; cbn; [ discriminate | ].
  destruct (String.eqb (key a) k); cbn; intros H.
  - pose proof (filter_length_le (fun l0 => negb (String.eqb (key l0) k)) c). lia.
  - apply IH in H. lia.
Qed.

Lemma unlink_absent (k : string) (c : list Link) :
  ~ In k (map key c) -> Cachetools.unlink k c = c.
Proof.
  unfold Cachetools.unlink.
  induction c as [| a c IH]; intros Hnin; [ reflexivity | ].
  cbn. destruct (String.eqb (key a) k) eqn:He.
  - apply String.eqb_eq in He. exfalso. apply Hnin. now left.
  - cbn. f_equal. apply IH. intros Hin. apply Hnin. now right.
Qed.

(** With one entry per key, moving an entry to the end only reorders. *)
Lemma relinked_permutation (k : string) (l : Link) (c : list Link) :
  NoDup (map key c) -> Cachetools.find_link k c = Some l ->
  Permutation (Cachetools.unlink k c ++ [l]) c.
Proof.
  intros Hnd Hfind.
  eapply Permutation_trans; [ apply Permutation_sym, Permutation_cons_append | ].
  revert Hnd Hfind. unfold Cachetools.find_link.
  induction c as [| a c IH]; intros Hnd Hfind; [ discriminate | ].
  cbn in Hnd. inversion Hnd as [| ? ? Hnotin Hnd']; subst.
  cbn [find] in Hfind. unfold Cachetools.unlink. cbn [List.filter].
  destruct (String.eqb (key a) k) eqn:He; cbn [negb].
  - injection Hfind as <-. apply String.eqb_eq in He. rewrite <- He.
    fold (Cachetools.unlink (key a) c). now rewrite unlink_absent.
  - eapply Permutation_trans; [ apply perm_swap | ].
    apply perm_skip. now apply IH.
Qed.

Lemma relinked_wf (k : string) (l : Link) (c : list Link) :
  cache_wf c -> Cachetools.find_link k c = Some l ->
  cache_wf (Cachetools.unlink k c ++ [l]).
Proof.
  intros [Hnd Hlen] Hfind. split.
  - apply relinked_NoDup; [ eapply find_link_key; exact Hfind | exact Hnd ].
  - rewrite length_app. cbn [List.length].
    pose proof (unlink_shorter k l c Hfind). lia.
Qed.

Lemma inserted_wf (time : Q) (k : string) (v : Document) (c : list Link) :
  cache_wf c -> cache_wf (Cachetools.inserted maxsize ttl time k v c).
Proof.
  intros [Hnd Hlen]. unfold Cachetools.inserted.
  assert (Hnd1 : NoDup (map key (Cachetools.expire time c)))
    by now apply keys_filter_NoDup.
  assert (Hlen1 : (List.length (Cachetools.expire time c) <= maxsize)%nat).
  { unfold Cachetools.expire.
    pose proof (filter_length_le (fun l0 => Qltb time (expires l0)) c). lia. }
  destruct (Cachetools.find_link k (Cachetools.expire time c)) as [l0 |] eqn:Hfind.
  - split; [ now apply relinked_NoDup | ].
    rewrite length_app. cbn [List.length].
    pose proof (unlink_shorter k l0 _ Hfind). lia.
  - destruct (make_room_suffix (Cachetools.expire time c)) as [dropped Hd].
    split.
    + apply relinked_NoDup; [ reflexivity | ].
      rewrite Hd, map_app in Hnd1. now apply NoDup_app_remove_l in Hnd1.
    + rewrite length_app. cbn [List.length].
      pose proof (make_room_length (Cachetools.expire time c)).
      pose proof (filter_length_le (fun l0 => negb (String.eqb (key l0) k))
                    (Cachetools.make_room maxsize (Cachetools.expire time c))).
      unfold Cachetools.unlink. lia.
Qed.

End CacheShape.

Section Invariant.
Variable w : World.

Lemma fetch_rates_wf (a b : string) (s : State) :
  cache_wf (_cache s) -> cache_wf (_cache (snd (fetch_rates w a b s))).
Proof.
  intros Hwf. rewrite fetch_rates_unfold.
  pose proof (lookup_step_cases w a b s) as Hl.
  assert (Hmiss : forall s1, _cache s1 = _cache s ->
                             cache_wf (_cache (snd (miss_path w a b s1)))).
  { intros s1 Hc.
    destruct (miss_path_state w a b s1) as [[Hc' _] | (data & Hc' & _)];
      rewrite Hc', Hc; [ exact Hwf | now apply inserted_wf ]. }
  destruct (entry a b s) as [l |] eqn:Hentry; rewrite Hl.
  - destruct (Qltb (monotonic w (timer_reads s)) (expires l)) eqn:Hlive.
    + match goal with
      | |- context [Cachetools.getitem w _ ?s1] =>
          destruct (Qltb (monotonic w (timer_reads s1)) (expires l)) eqn:Hlive2;
          [ apply Qltb_lt in Hlive2;
            rewrite (getitem_live w (cache_key_of a b) l s1 Hentry Hlive2)
          | rewrite (getitem_expired w (cache_key_of a b) l s1 Hentry Hlive2) ]
      end; cbn [snd _cache]; now apply relinked_wf.
    + now apply Hmiss.
  - now apply Hmiss.
Qed.

End Invariant.

(** X9: calls keep the cache in shape: from a cache with one entry per key
    and at most [maxsize] (256) entries, any sequence of [fetch_rates]
    calls, and a [get_summary] call after it, leave a cache with one entry
    per key and at most 256 entries. *)
Theorem cache_stays_bounded (w : World) (ranges : list (string * string)) (s : State)
    (Hwf : cache_wf (_cache s)) :
  cache_wf (_cache (fetch_all w ranges s))
  /\ forall start_date end_date breakdown,
       cache_wf (_cache (snd (get_summary w start_date end_date breakdown
                                (fetch_all w ranges s)))).
Proof.
  assert (Hall : cache_wf (_cache (fetch_all w ranges s))).
  { revert s Hwf. induction ranges as [| [a b] rest IH]; intros s Hwf;
      cbn [fetch_all]; [ exact Hwf | ].
    apply IH. now apply fetch_rates_wf. }
  split; [ exact Hall | ].
  intros start_date end_date breakdown.
  rewrite get_summary_unfold.
  pose proof (fetch_rates_wf w start_date end_date _ Hall) as Hstep.
  destruct (fetch_rates w start_date end_date (fetch_all w ranges s))
    as [[d | e] s']; exact Hstep.
Qed.

Lemma cache_stays_bounded_witness :
  cache_wf (_cache Examples.s0)
  /\ cache_wf (_cache (fetch_all Examples.w_down
                         ((Examples.jan_1, Examples.jan_3) :: Examples.other_ranges)
                         Examples.s0)).
Proof.
  assert (Hwf : cache_wf (_cache Examples.s0)).
  { split; [ constructor | cbn; unfold maxsize; lia ]. }
  split; [ exact Hwf | ].
  exact (proj1 (cache_stays_bounded Examples.w_down
                  ((Examples.jan_1, Examples.jan_3) :: Examples.other_ranges)
                  Examples.s0 Hwf)).
Defined.

(** X10: a hit only reorders the cache: the call returns the entry's
    document, the cache holds the same entries as before (none added,
    dropped or renewed; the entry keeps its expiry), and the entry read is
    now the most recently used one. *)
Theorem hit_only_reorders (w : World) (start_date end_date : string)
    (s : State) (l : Link)
    (Hwf : cache_wf (_cache s))
    (Hentry : entry start_date end_date s = Some l)
    (Htest : (monotonic w (timer_reads s) < expires l)%Q)
    (Hread : (monotonic w (S (timer_reads s)) < expires l)%Q) :
  fst (fetch_rates w start_date end_date s) = Ok (val l)
  /\ Permutation (_cache (snd (fetch_rates w start_date end_date s))) (_cache s)
  /\ entry start_date end_date (snd (fetch_rates w start_date end_date s)) = Some l
  /\ exists older, _cache (snd (fetch_rates w start_date end_date s)) = older ++ [l].
Proof.
  rewrite (fetch_rates_hit w start_date end_date s l Hentry Htest Hread).
  cbn [fst snd _cache]. split; [ reflexivity | ].
  split; [ apply relinked_permutation; [ exact (proj1 Hwf) | exact Hentry ] | ].
  split.
  - unfold entry. cbn [_cache]. apply find_link_relinked.
    eapply find_link_key; exact Hentry.
  - eexists. reflexivity.
Qed.

Lemma hit_only_reorders_witness :
  fst (fetch_rates Examples.w_live Examples.jan_1 Examples.jan_3 Scenarios.s_live)
  = Ok Examples.doc_live
  /\ Permutation
       (_cache (snd (fetch_rates Examples.w_live Examples.jan_1 Examples.jan_3
                       Scenarios.s_live)))
       (_cache Scenarios.s_live).
Proof.
  assert (Hwf : cache_wf (_cache Scenarios.s_live)).
  { split; [ vm_compute; repeat constructor; intros [] | vm_compute; lia ]. }
  assert (Hentry : entry Examples.jan_1 Examples.jan_3 Scenarios.s_live
                   = Some {| key := cache_key_of Examples.jan_1 Examples.jan_3;
                             val := Examples.doc_live; expires := 0 + 900 |})
    by (vm_compute; reflexivity).
  destruct (hit_only_reorders Examples.w_live Examples.jan_1 Examples.jan_3
              Scenarios.s_live _ Hwf Hentry) as (H1 & H2 & _).
  - vm_compute. reflexivity.
  - vm_compute. reflexivity.
  - split; [ exact H1 | exact H2 ].
Defined.


Section Survival.
Variable w : World.
Variables start_date end_date : string.

(** After a call that returned, its document's entry is the most recently
    used one. *)
Lemma fetch_rates_ok_held (s : State) (d : Document) :
  fst (fetch_rates w start_date end_date s) = Ok d ->
  exists l,
    key l = cache_key_of start_date end_date /\ val l = d
    /\ held l [] (_cache (snd (fetch_rates w start_date end_date s))).
Proof.
  rewrite fetch_rates_unfold.
  pose proof (lookup_step_cases w start_date end_date s) as Hl.
  assert (Hmiss : forall s1,
            fst (miss_path w start_date end_date s1) = Ok d ->
            exists l,
              key l = cache_key_of start_date end_date /\ val l = d
              /\ held l [] (_cache (snd (miss_path w start_date end_date s1)))).
  { intros s1 Hok.
    destruct (miss_path_state w start_date end_date s1)
      as [[Hc Ht] | (data & Hc & Ht)].
    - exfalso. revert Hok Ht. unfold miss_path.
      destruct (fetch_from_api_frame w (request_url start_date end_date)
                  request_params s1) as (_ & Ht2 & _).
      destruct (_fetch_from_api w _ _ s1) as [[data | e] s2]; cbn [snd] in Ht2.
      + rewrite setitem_run. cbn [snd timer_reads]. lia.
      + destruct (sample_fx w (fallback_loads s2)); cbn [fst]; [ | discriminate ].
        rewrite setitem_run. cbn [snd timer_reads read_sample_fx]. lia.
    - pose proof (miss_path_entry w start_date end_date s1 d Hok) as Hentry.
      unfold entry in Hentry. rewrite Hc in Hentry |- *.
      unfold Cachetools.inserted in Hentry.
      rewrite find_link_relinked in Hentry by reflexivity.
      injection Hentry as Hdata.
      eexists. split; [ | split; [ | apply held_fresh; reflexivity ] ].
      + reflexivity.
      + cbn. congruence. }
  destruct (entry start_date end_date s) as [l |] eqn:Hentry; rewrite Hl.
  - destruct (Qltb (monotonic w (timer_reads s)) (expires l)) eqn:Hlive.
    + match goal with
      | |- context [Cachetools.getitem w _ ?s1] =>
          destruct (Qltb (monotonic w (timer_reads s1)) (expires l)) eqn:Hlive2;
          [ apply Qltb_lt in Hlive2;
            rewrite (getitem_live w (cache_key_of start_date end_date) l s1 Hentry Hlive2)
          | rewrite (getitem_expired w (cache_key_of start_date end_date) l s1
                       Hentry Hlive2) ]
      end; cbn [fst snd _cache]; intros Hok; [ | discriminate Hok ].
      injection Hok as <-. exists l.
      pose proof (find_link_key _ _ _ Hentry) as Hk.
      split; [ exact Hk | ]. split; [ reflexivity | ].
      rewrite <- Hk. apply held_relink_self.
    + apply Hmiss.
  - apply Hmiss.
Qed.

End Survival.

(** X11: whatever call returned a document for a range (from the network,
    the fallback or the cache), a later call for that range returns the same
    document without a GET or a file read, after any calls in between, as
    long as the clock readings up to it fall before the entry's expiry and
    fewer than [maxsize] (256) other ranges were asked for in between. *)
Theorem cached_document_survives (w : World) (start_date end_date : string)
    (s : State) (d : Document) (ranges : list (string * string))
    (Hfirst : fst (fetch_rates w start_date end_date s) = Ok d)
    (Hroom :
       (List.length (other_keys (cache_key_of start_date end_date) ranges) < maxsize)%nat)
    (Hwindow :
       forall l i,
         entry start_date end_date (snd (fetch_rates w start_date end_date s)) = Some l ->
         (timer_reads (snd (fetch_rates w start_date end_date s)) <= i
          <= S (timer_reads (fetch_all w ranges
                               (snd (fetch_rates w start_date end_date s)))))%nat ->
         (monotonic w i < expires l)%Q) :
  fst (fetch_rates w start_date end_date
         (fetch_all w ranges (snd (fetch_rates w start_date end_date s)))) = Ok d
  /\ requests (snd (fetch_rates w start_date end_date
                      (fetch_all w ranges (snd (fetch_rates w start_date end_date s)))))
     = requests (fetch_all w ranges (snd (fetch_rates w start_date end_date s)))
  /\ fallback_loads
       (snd (fetch_rates w start_date end_date
               (fetch_all w ranges (snd (fetch_rates w start_date end_date s)))))
     = fallback_loads (fetch_all w ranges (snd (fetch_rates w start_date end_date s))).
Proof.
  destruct (fetch_rates_ok_held w start_date end_date s d Hfirst)
    as (l & Hkey & Hval & Hheld1).
  set (s1 := snd (fetch_rates w start_date end_date s)) in *.
  assert (Hentry1 : entry start_date end_date s1 = Some l)
    by (unfold entry; rewrite <- Hkey; exact (held_find l [] _ Hheld1)).
  set (s2 := fetch_all w ranges s1) in *.
  assert (Hheld2 : held l (others (key l) ranges ++ []) (_cache s2)).
  { apply fetch_all_keeps; [ exact Hheld1 | | ].
    - intros ks Hnd Hincl. rewrite app_nil_r, Hkey in Hincl.
      eapply Nat.le_lt_trans; [ | exact Hroom ].
      apply NoDup_incl_length; [ exact Hnd | ].
      intros x Hx. unfold other_keys. apply nodup_In. now apply Hincl.
    - intros i Hi. now apply (Hwindow l i Hentry1). }
  assert (Hentry2 : entry start_date end_date s2 = Some l)
    by (unfold entry; rewrite <- Hkey; exact (held_find l _ _ Hheld2)).
  pose proof (fetch_all_timer w ranges s1) as Hmono. fold s2 in Hmono.
  rewrite (fetch_rates_hit w start_date end_date s2 l Hentry2).
  - cbn [fst snd requests fallback_loads]. rewrite Hval. now repeat split.
  - apply (Hwindow l _ Hentry1). lia.
  - apply (Hwindow l _ Hentry1). lia.
Qed.

Lemma cached_document_survives_witness :
  fst (fetch_rates Examples.w_live Examples.jan_1 Examples.jan_3
         (fetch_all Examples.w_live [(Examples.jan_3, Examples.jan_3)]
            (snd (fetch_rates Examples.w_live Examples.jan_1 Examples.jan_3
                    Examples.s0))))
  = Ok Examples.doc_live.
Proof.
  assert (Hfirst : fst (fetch_rates Examples.w_live Examples.jan_1 Examples.jan_3
                          Examples.s0) = Ok Examples.doc_live)
    by (vm_compute; reflexivity).
  refine (proj1 (cached_document_survives Examples.w_live Examples.jan_1 Examples.jan_3
                   Examples.s0 Examples.doc_live [(Examples.jan_3, Examples.jan_3)]
                   Hfirst _ _)).
  - vm_compute. lia.
  - intros l i Hl Hi. vm_compute in Hl. injection Hl as <-.
    vm_compute in Hi. destruct Hi as [_ Hi].
    assert (Hcases : (i <= 3)%nat) by lia.
    do 4 (destruct i as [| i]; [ vm_compute; reflexivity | ]). lia.
Defined.


(* ------------------------------------------------------------------ *)
(** * Further properties: keys, statistics, the dashboard view         *)
(* ------------------------------------------------------------------ *)

Section CacheKey.

Lemma append_dots_injective (a c : string) :
  dot_free a = true -> dot_free c = true ->
  forall b d, (a ++ ".." ++ b = c ++ ".." ++ d)%string -> a = c /\ b = d.
Proof.
  revert c. induction a as [| x a IH]; intros [| y c] Ha Hc b d Heq.
  - cbn in Heq. injection Heq as ->. now split.
  - exfalso. cbn in Heq. injection Heq as <- _. cbn in Hc. discriminate Hc.
  - exfalso. cbn in Heq. injection Heq as -> _. cbn in Ha. discriminate Ha.
  - cbn in Heq. injection Heq as -> Heq.
    cbn in Ha, Hc. apply andb_true_iff in Ha, Hc.
    destruct (IH c (proj2 Ha) (proj2 Hc) b d Heq) as [-> ->]. now split.
Qed.

End CacheKey.

(** X13: two different ranges whose start dates contain no full stop (as
    ISO dates) never share a cache key. *)
Theorem cache_key_injective (start_date end_date start_date' end_date' : string)
    (Hfree : dot_free start_date = true)
    (Hfree' : dot_free start_date' = true)
    (Hdiff : start_date <> start_date' \/ end_date <> end_date') :
  cache_key_of start_date end_date <> cache_key_of start_date' end_date'.
Proof.
  intros Hkey.
  destruct (append_dots_injective _ _ Hfree Hfree' _ _ Hkey) as [Hs He].
  destruct Hdiff as [H | H]; contradiction.
Qed.

Lemma cache_key_injective_witness :
  dot_free Examples.jan_1 = true
  /\ dot_free Examples.jan_3 = true
  /\ cache_key_of Examples.jan_1 Examples.jan_3
     <> cache_key_of Examples.jan_3 Examples.jan_3.
Proof.
  split; [ reflexivity | ]. split; [ reflexivity | ].
  apply (cache_key_injective Examples.jan_1 Examples.jan_3
           Examples.jan_3 Examples.jan_3); try reflexivity.
  left. discriminate.
Defined.

Section Span.

Lemma leb_refl (a : string) : String.leb a a = true.
Proof. apply leb_cases. now right. Qed.

Lemma last_of_map (A B : Type) (f : A -> B) (xs : list A) (x : A) :
  last (map f xs) (f x) = f (last xs x).
Proof.
  induction xs as [| a [| b xs] IH]; try reflexivity.
  exact IH.
Qed.

Lemma last_cons (A : Type) (ys : list A) :
  forall x y : A, last (y :: ys) x = last ys y.
Proof.
  induction ys as [| z zs IH]; intros x y; [ reflexivity | ].
  change (last (y :: z :: zs) x) with (last (z :: zs) x).
  now rewrite (IH x z), (IH y z).
Qed.

(** In a sorted list every item is at most the last one. *)
Lemma strongly_sorted_last (x : string) (xs : list string) :
  StronglySorted (fun a b => is_true (String.leb a b)) (x :: xs) ->
  forall k, In k (x :: xs) -> String.leb k (last xs x) = true.
Proof.
  revert x. induction xs as [| y ys IH]; intros x Hs k Hk.
  - destruct Hk as [<- | []]. apply leb_refl.
  - apply StronglySorted_inv in Hs. destruct Hs as [Hs Hall].
    rewrite last_cons.
    destruct Hk as [<- | Hk].
    + rewrite Forall_forall in Hall.
      eapply leb_trans; [ apply (Hall y); now left | ].
      apply (IH y Hs y). now left.
    + now apply (IH y Hs k).
Qed.

Lemma day_records_rate_list (rates : Rates) (dates : list string) (prev : option float) :
  map rate (Design.day_records rates dates prev) = map (Design.usd_rate rates) dates.
Proof.
  revert prev. induction dates as [| d rest IH]; intros prev; cbn; [ reflexivity | ].
  now rewrite IH.
Qed.

End Span.

(** X14: for a non-empty rates mapping, the totals built from the day
    records span the dates: [start_rate] is the USD rate (or [0.0]) of the
    smallest date key, [end_rate] that of the largest, [total_pct_change]
    the guarded change between the two, and [mean_rate] the rounded mean of
    the rates of all dates. *)
Theorem totals_span_the_dates (rates : Rates) (Hne : rates <> []) :
  exists lo hi totals,
    In lo (keys rates) /\ In hi (keys rates)
    /\ (forall k, In k (keys rates) ->
                  String.leb lo k = true /\ String.leb k hi = true)
    /\ bind (_build_day_records rates) _build_totals = Ok totals
    /\ start_rate totals = Design.usd_rate rates lo
    /\ end_rate totals = Design.usd_rate rates hi
    /\ total_pct_change totals
       = Design.percent_change (Design.usd_rate rates hi) (Design.usd_rate rates lo)
    /\ mean_rate totals
       = Design.mean_rate_of (map (Design.usd_rate rates) (sorted (keys rates))).
Proof.
  pose proof (sorted_permutation (keys rates)) as Hperm.
  pose proof (sorted_strongly (keys rates)) as Hsorted.
  rewrite build_day_records_design.
  destruct (sorted (keys rates)) as [| lo rest] eqn:Hs.
  { exfalso. apply Permutation_sym, Permutation_nil in Hperm.
    destruct rates; [ now apply Hne | discriminate Hperm ]. }
  cbn [Design.day_records bind]. rewrite build_totals_cons.
  eexists lo, (last rest lo), _.
  split; [ eapply Permutation_in; [ apply Permutation_sym; exact Hperm | now left ] | ].
  split.
  { eapply Permutation_in; [ apply Permutation_sym; exact Hperm | ].
    destruct rest as [| y ys]; [ now left | right ].
    rewrite last_cons. clear. revert y. induction ys as [| z zs IH]; intros y; [ now left | ].
    rewrite last_cons. right. apply IH. }
  split.
  { intros k Hk. apply (Permutation_in _ Hperm) in Hk. split.
    - destruct Hk as [<- | Hk]; [ apply leb_refl | ].
      apply StronglySorted_inv in Hsorted. destruct Hsorted as [_ Hall].
      rewrite Forall_forall in Hall. now apply Hall.
    - now apply strongly_sorted_last. }
  split; [ reflexivity | ].
  cbn [start_rate end_rate total_pct_change mean_rate rate].
  assert (Hend :
    rate (last (Design.day_records rates rest (Some (Design.usd_rate rates lo)))
            {| date := lo; rate := Design.usd_rate rates lo;
               pct_change := option_map
                               (Design.percent_change (Design.usd_rate rates lo)) None |})
    = Design.usd_rate rates (last rest lo)).
  { rewrite <- (last_of_map _ _ rate). cbn [rate].
    rewrite day_records_rate_list.
    now rewrite (last_of_map _ _ (Design.usd_rate rates)). }
  rewrite Hend. split; [ reflexivity | ]. split; [ reflexivity | ].
  split; [ reflexivity | ].
  cbn [map rate]. now rewrite day_records_rate_list.
Qed.

Lemma totals_span_the_dates_witness :
  Examples.rates_jan <> []
  /\ exists lo hi totals,
       bind (_build_day_records Examples.rates_jan) _build_totals = Ok totals
       /\ start_rate totals = Design.usd_rate Examples.rates_jan lo
       /\ end_rate totals = Design.usd_rate Examples.rates_jan hi.
Proof.
  assert (Hne : Examples.rates_jan <> []) by discriminate.
  split; [ exact Hne | ].
  destruct (totals_span_the_dates Examples.rates_jan Hne)
    as (lo & hi & totals & _ & _ & _ & Hrun & Hstart & Hend & _).
  exists lo, hi, totals. now repeat split.
Defined.

Section Dashboard.
Variable w : World.
Variable str : Exn -> string.
Variables default_start default_end : string.
Variable GET : dict string.

Local Abbreviation asked_start := (get GET "start_date" default_start).
Local Abbreviation asked_end := (get GET "end_date" default_end).


End Dashboard.


Section Eviction.

Lemma expire_all_live (time : Q) (c : list Link) :
  (forall l, In l c -> (time < expires l)%Q) -> Cachetools.expire time c = c.
Proof.
  unfold Cachetools.expire.
  induction c as [| a c IH]; intros Hlive; [ reflexivity | ].
  cbn. rewrite (proj2 (Qltb_lt time (expires a))) by (apply Hlive; now left).
  f_equal. apply IH. intros l Hl. apply Hlive. now right.
Qed.

(** A full cache makes room for a new key by dropping its first entry, and
    only that one. *)
Lemma make_room_full (a : Link) (c : list Link) :
  List.length (a :: c) = maxsize -> Cachetools.make_room maxsize (a :: c) = c.
Proof.
  intros Hlen. cbn [Cachetools.make_room].
  replace (maxsize <? List.length (a :: c) + 1)%nat with true
    by (symmetry; apply Nat.ltb_lt; lia).
  destruct c as [| b c']; [ reflexivity | ].
  cbn [Cachetools.make_room].
  replace (maxsize <? List.length (b :: c') + 1)%nat with false; [ reflexivity | ].
  symmetry. apply Nat.ltb_ge. cbn [List.length] in *. lia.
Qed.

End Eviction.

(** X12: when the cache is full of live entries and a range that has no
    entry is fetched, the call drops exactly the least recently used entry:
    the cache afterwards is the old one without its first entry, followed
    by the new entry. *)
Theorem full_cache_evicts_oldest (w : World) (start_date end_date : string)
    (s : State) (d : Document)
    (Hnew : entry start_date end_date s = None)
    (Hfull : List.length (_cache s) = maxsize)
    (Hlive : forall l, In l (_cache s) ->
                       (monotonic w (timer_reads s) < expires l)%Q)
    (Hok : fst (fetch_rates w start_date end_date s) = Ok d) :
  exists oldest rest,
    _cache s = oldest :: rest
    /\ _cache (snd (fetch_rates w start_date end_date s))
       = rest ++ [{| key := cache_key_of start_date end_date; val := d;
                     expires := monotonic w (timer_reads s) + ttl |}].
Proof.
  pose proof (lookup_step_cases w start_date end_date s) as Hl.
  rewrite Hnew in Hl.
  assert (Hmiss : is_miss w start_date end_date s)
    by (unfold is_miss; now rewrite Hl).
  destruct (miss_cache w start_date end_date s d Hmiss Hok) as [Hcache _].
  rewrite Hl in Hcache. cbn [snd] in Hcache.
  destruct (_cache s) as [| oldest rest] eqn:Hc.
  { cbn in Hfull. unfold maxsize in Hfull. discriminate Hfull. }
  exists oldest, rest. split; [ reflexivity | ].
  rewrite Hcache. unfold Cachetools.inserted.
  rewrite (expire_all_live _ _ Hlive).
  unfold entry in Hnew. rewrite Hc in Hnew. rewrite Hnew.
  rewrite (make_room_full oldest rest Hfull).
  rewrite unlink_absent; [ reflexivity | ].
  intros Hin. apply find_link_none in Hnew. apply Hnew. cbn [map]. now right.
Qed.

Lemma full_cache_evicts_oldest_witness :
  entry Examples.jan_1 Examples.jan_3 Examples.s_crowded = None
  /\ exists oldest rest,
       _cache Examples.s_crowded = oldest :: rest
       /\ _cache (snd (fetch_rates Examples.w_down Examples.jan_1 Examples.jan_3
                         Examples.s_crowded))
          = rest ++ [{| key := cache_key_of Examples.jan_1 Examples.jan_3;
                        val := Examples.doc_sample;
                        expires :=
                          monotonic Examples.w_down (timer_reads Examples.s_crowded)
                          + ttl |}].
Proof.
  assert (Hnew : entry Examples.jan_1 Examples.jan_3 Examples.s_crowded = None)
    by (vm_compute; reflexivity).
  split; [ exact Hnew | ].
  apply (full_cache_evicts_oldest Examples.w_down Examples.jan_1 Examples.jan_3
           Examples.s_crowded Examples.doc_sample Hnew).
  - vm_compute. reflexivity.
  - intros l Hl. change (monotonic Examples.w_down (timer_reads Examples.s_crowded))
      with (0 : Q).
    assert (Hall : forallb (fun l0 => Qltb 0 (expires l0)) (_cache Examples.s_crowded)
                   = true) by (vm_compute; reflexivity).
    rewrite forallb_forall in Hall. apply Qltb_lt. apply Hall. exact Hl.
  - vm_compute. reflexivity.
Defined.
